(** * GeoShield: model registry, ensemble inference and geographic adjustment

    A shallow embedding of the decision logic of the GeoShield landslide
    service:

    - [ml-service/app/core/config.py]            (module [Config])
    - [ml-service/app/ml/registry/model_store.py] (module [ModelStore])
    - [ml-service/app/schemas/prediction.py] and
      [ml-service/app/api/v1/endpoints/predict.py] (module [Endpoints])
    - [server/ml/predict.py]                      (module [Bridge])

    Python floats are idealised as real numbers; every comparison,
    [min], [max] and [abs] of the source is written out with the branch
    order Python uses.  Exceptions are explicit results, mutable objects
    are passed and returned as state. *)

From Stdlib Require Import Reals Lra Lia ZArith List Ascii String Sorted.
From Stdlib Require Import Permutation.
From stdpp Require Import base option list gmap strings pretty.

Import ListNotations.

#[local] Open Scope R_scope.

(** ** Python and numpy numerics *)

Module Py.

(** [min(a, b)]: the first argument unless the second is strictly smaller. *)
Definition min (a b : R) : R := if Rlt_dec b a then b else a.

(** [max(a, b)]: the first argument unless the second is strictly larger. *)
Definition max (a b : R) : R := if Rlt_dec a b then b else a.

(** [abs(x)]. *)
Definition abs (x : R) : R := if Rlt_dec x 0 then - x else x.

Fixpoint sum (xs : list R) : R :=
  match xs with
  | [] => 0
  | x :: xs' => x + sum xs'
  end.

(** [np.mean], [Series.mean]. *)
Definition mean (xs : list R) : R := sum xs / INR (length xs).

(** [np.std] with its default [ddof=0]: the root of the mean squared
    deviation from the mean. *)
Definition std (xs : list R) : R :=
  let m := mean xs in
  sqrt (mean (map (fun x => (x - m) * (x - m)) xs)).

(** [np.radians]. *)
Definition radians (deg : R) : R := deg * PI / 180.

(** [np.arctan2(y, x)]. *)
Definition arctan2 (y x : R) : R :=
  if Rlt_dec 0 x then atan (y / x)
  else if Rlt_dec x 0 then
    (if Rlt_dec y 0 then atan (y / x) - PI else atan (y / x) + PI)
  else if Rlt_dec 0 y then PI / 2
  else if Rlt_dec y 0 then - (PI / 2)
  else 0.

(** Truth value of a list or of an optional list: [None] and [[]] are false. *)
Definition truthy {A} (o : option (list A)) : bool :=
  match o with
  | Some (_ :: _) => true
  | _ => false
  end.

End Py.

(** ** [app/core/config.py] *)

Module Config.

Record Settings := {
  MODEL_VERSION : string;
  FEATURE_COLUMNS : list string;
  N_FEATURES : nat;
  LOW_RISK_THRESHOLD : R;
  MODERATE_RISK_THRESHOLD : R;
  HIGH_RISK_THRESHOLD : R;
  SEVERE_RISK_THRESHOLD : R;
  MAX_BATCH_SIZE : nat
}.

(** The defaults of the [Settings] class. *)
Definition settings : Settings := {|
  MODEL_VERSION := "production";
  FEATURE_COLUMNS :=
    [ "rainfall_intensity"; "soil_moisture"; "ndvi"; "slope_angle";
      "elevation"; "lithology_code"; "land_use_code"; "distance_to_road";
      "distance_to_river"; "drainage_density"; "curvature"; "aspect"; "twi";
      "historical_landslides"; "precipitation_30d"; "temperature";
      "humidity" ]%string;
  N_FEATURES := 17;
  LOW_RISK_THRESHOLD := 3 / 10;
  MODERATE_RISK_THRESHOLD := 5 / 10;
  HIGH_RISK_THRESHOLD := 7 / 10;
  SEVERE_RISK_THRESHOLD := 9 / 10;
  MAX_BATCH_SIZE := 100
|}.

End Config.

(** ** [app/ml/registry/model_store.py] *)

Module ModelStore.

(** A trained classifier as the service uses it: the positive-class
    probability [predict_proba(X)[0][1]] of a one-row matrix ([None] when
    the call raises) and the optional [feature_importances_] attribute. *)
Record Model := {
  predict_proba : list R -> option R;
  feature_importances_ : option (list R)
}.

(** Values of a metadata dictionary. *)
Inductive MetaValue :=
| MBool (b : bool)
| MInt (z : Z)
| MStr (s : string).

(** Files of the models directory. *)
Inductive File :=
| ModelFile (m : Model)
| MetadataFile (md : gmap string MetaValue)
| CorruptFile.

(** [joblib.load] of a model file; [None] when it raises. *)
Definition joblib_load (f : File) : option Model :=
  match f with
  | ModelFile m => Some m
  | _ => None
  end.

(** [pickle.load] of a metadata file; [None] when it raises. *)
Definition pickle_load (f : File) : option (gmap string MetaValue) :=
  match f with
  | MetadataFile md => Some md
  | _ => None
  end.

Record ModelRegistry := {
  models : gmap string Model;
  model_metadata : gmap string (gmap string MetaValue);
  loaded : bool
}.

(** [ModelRegistry.__init__]. *)
Definition init : ModelRegistry :=
  {| models := ∅; model_metadata := ∅; loaded := false |}.

Definition model_files : list (string * string) :=
  [ ("xgboost", "xgboost_model.pkl");
    ("lightgbm", "lightgbm_model.pkl");
    ("random_forest", "random_forest_model.pkl");
    ("svm", "svm_model.pkl");
    ("neural_network", "neural_network_model.pkl");
    ("ensemble", "ensemble_model.pkl");
    ("preprocessor", "preprocessor.pkl");
    ("pca", "pca_model.pkl") ]%string.

Section WithDummies.

(** The random forest and the scaler that [_create_dummy_models] fits on
    random data. *)
Variable dummy_model : Model.
Variable scaler : Model.

Definition _create_dummy_models (self : ModelRegistry) : ModelRegistry :=
  let ms := models self in
  let ms := <["ensemble" := dummy_model]> ms in
  let ms := <["xgboost" := dummy_model]> ms in
  let ms := <["lightgbm" := dummy_model]> ms in
  let ms := <["random_forest" := dummy_model]> ms in
  let ms := <["svm" := dummy_model]> ms in
  let ms := <["neural_network" := dummy_model]> ms in
  let ms := <["preprocessor" := scaler]> ms in
  {| models := ms;
     model_metadata := model_metadata self;
     loaded := loaded self |}.

(** One iteration of the loop of [load_models] over [model_files]; the
    state is the registry and [loaded_count]. *)
Definition load_one (disk : gmap string File)
    (st : ModelRegistry * nat) (entry : string * string)
    : ModelRegistry * nat :=
  let '(self, loaded_count) := st in
  let '(model_name, filename) := entry in
  match disk !! filename with
  | None => (self, loaded_count)
  | Some f =>
    match joblib_load f with
    | None => (self, loaded_count)
    | Some model =>
      let self1 :=
        {| models := <[model_name := model]> (models self);
           model_metadata := model_metadata self;
           loaded := loaded self |} in
      match disk !! (model_name +:+ "_metadata.pkl") with
      | None => (self1, S loaded_count)
      | Some mf =>
        match pickle_load mf with
        | None => (self1, loaded_count)
        | Some md =>
          ({| models := models self1;
              model_metadata := <[model_name := md]> (model_metadata self1);
              loaded := loaded self1 |}, S loaded_count)
        end
      end
    end
  end.

Definition load_models (disk : gmap string File) (self : ModelRegistry)
    : ModelRegistry :=
  let '(self1, loaded_count) := fold_left (load_one disk) model_files (self, O) in
  let self2 :=
    if Nat.eqb loaded_count 0 then _create_dummy_models self1 else self1 in
  {| models := models self2;
     model_metadata := model_metadata self2;
     loaded := true |}.

End WithDummies.

(** The value of [loaded_count] when the loop of [load_models] ends. *)
Definition loaded_count (disk : gmap string File) (self : ModelRegistry)
    : nat :=
  snd (fold_left (load_one disk) model_files (self, O)).

Definition get_model (self : ModelRegistry) (model_name : string)
    : option Model :=
  models self !! model_name.

Definition get_metadata (self : ModelRegistry) (model_name : string)
    : gmap string MetaValue :=
  default ∅ (model_metadata self !! model_name).

Definition is_ready (self : ModelRegistry) : bool :=
  loaded self && bool_decide (is_Some (models self !! "ensemble")).

Definition get_loaded_models (self : ModelRegistry) : list string :=
  (map_to_list (models self)).*1.

(** [if metadata:] holds for a dictionary that is given and not empty. *)
Definition metadata_given (metadata : option (gmap string MetaValue))
    : option (gmap string MetaValue) :=
  match metadata with
  | Some md => if decide (md = ∅) then None else Some md
  | None => None
  end.

(** [save_model] writes the artifact (and the metadata when given), then
    registers both in memory. *)
Definition save_model (model_name : string) (model : Model)
    (metadata : option (gmap string MetaValue))
    (st : ModelRegistry * gmap string File)
    : ModelRegistry * gmap string File :=
  let '(self, disk) := st in
  let disk1 := <[model_name +:+ "_model.pkl" := ModelFile model]> disk in
  match metadata_given metadata with
  | Some md =>
    ({| models := <[model_name := model]> (models self);
        model_metadata := <[model_name := md]> (model_metadata self);
        loaded := loaded self |},
     <[model_name +:+ "_metadata.pkl" := MetadataFile md]> disk1)
  | None =>
    ({| models := <[model_name := model]> (models self);
        model_metadata := model_metadata self;
        loaded := loaded self |}, disk1)
  end.

Definition unload_model (model_name : string) (self : ModelRegistry)
    : ModelRegistry :=
  {| models := delete model_name (models self);
     model_metadata := model_metadata self;
     loaded := loaded self |}.

(** [reload_model]: the slot is unloaded first; the boolean tells whether
    the call returned normally ([joblib.load] raising propagates). *)
Definition reload_model (disk : gmap string File) (model_name : string)
    (self : ModelRegistry) : ModelRegistry * bool :=
  let self1 := unload_model model_name self in
  match disk !! (model_name +:+ "_model.pkl") with
  | Some f =>
    match joblib_load f with
    | Some model =>
      ({| models := <[model_name := model]> (models self1);
          model_metadata := model_metadata self1;
          loaded := loaded self1 |}, true)
    | None => (self1, false)
    end
  | None => (self1, true)
  end.

Definition cleanup (self : ModelRegistry) : ModelRegistry :=
  {| models := ∅; model_metadata := ∅; loaded := false |}.

(** What the models directory yields for a model file name: the object
    [joblib.load] returns, [None] when the file is missing or the load
    raises. *)
Definition load_artifact (disk : gmap string File) (filename : string)
    : option Model :=
  match disk !! filename with
  | Some f => joblib_load f
  | None => None
  end.

(** The metadata stored beside a slot: [None] when the metadata file is
    missing or unreadable. *)
Definition load_metadata (disk : gmap string File) (model_name : string)
    : option (gmap string MetaValue) :=
  match disk !! (model_name +:+ "_metadata.pkl") with
  | Some f => pickle_load f
  | None => None
  end.

End ModelStore.

(** ** [app/schemas/prediction.py] and [app/api/v1/endpoints/predict.py] *)

Module Endpoints.

Import Config ModelStore.

Inductive RiskLevel := VERY_LOW | LOW | MODERATE | HIGH | SEVERE.

Definition RiskLevel_value (r : RiskLevel) : string :=
  match r with
  | VERY_LOW => "Very Low"
  | LOW => "Low"
  | MODERATE => "Moderate"
  | HIGH => "High"
  | SEVERE => "Severe"
  end.

Record FeatureSet := {
  rainfall_intensity : R;
  soil_moisture : R;
  ndvi : R;
  slope_angle : R;
  elevation : R;
  lithology_code : Z;
  land_use_code : Z;
  distance_to_road : R;
  distance_to_river : R;
  drainage_density : R;
  curvature : R;
  aspect : R;
  twi : R;
  historical_landslides : Z;
  precipitation_30d : R;
  temperature : R;
  humidity : R
}.

(** [model_dump().values()]: the field values in declaration order. *)
Definition model_dump_values (f : FeatureSet) : list R :=
  [ rainfall_intensity f; soil_moisture f; ndvi f; slope_angle f;
    elevation f; IZR (lithology_code f); IZR (land_use_code f);
    distance_to_road f; distance_to_river f; drainage_density f;
    curvature f; aspect f; twi f; IZR (historical_landslides f);
    precipitation_30d f; temperature f; humidity f ].

Record PredictionRequest := {
  req_location_name : string;
  req_latitude : R;
  req_longitude : R;
  req_features : FeatureSet
}.

Record PredictionResponse := {
  location_name : string;
  latitude : R;
  longitude : R;
  probability : R;
  risk_level : RiskLevel;
  confidence : R;
  feature_importance : list (string * R);
  model_version : string;
  timestamp : Z;
  recommended_actions : list string
}.

Definition RiskLevel_eqb (a b : RiskLevel) : bool :=
  match a, b with
  | VERY_LOW, VERY_LOW | LOW, LOW | MODERATE, MODERATE
  | HIGH, HIGH | SEVERE, SEVERE => true
  | _, _ => false
  end.

(** The dictionary of the [calculate_summary] validator. *)
Record Summary := {
  total : nat;
  very_low : nat;
  low : nat;
  moderate : nat;
  high : nat;
  severe : nat
}.

Definition calculate_summary (predictions : list PredictionResponse)
    : Summary :=
  let count r :=
    length (List.filter (fun p => RiskLevel_eqb (risk_level p) r)
              predictions) in
  {| total := length predictions;
     very_low := count VERY_LOW;
     low := count LOW;
     moderate := count MODERATE;
     high := count HIGH;
     severe := count SEVERE |}.

Record BatchPredictionResponse := {
  predictions : list PredictionResponse;
  total_locations : nat;
  batch_timestamp : Z;
  summary : Summary
}.

(** The table of the [set_recommended_actions] validator. *)
Definition set_recommended_actions (r : RiskLevel) : list string :=
  match r with
  | VERY_LOW =>
    [ "Continue normal monitoring"; "Review historical data periodically" ]
  | LOW =>
    [ "Increase monitoring frequency"; "Check drainage systems";
      "Monitor weather forecasts" ]
  | MODERATE =>
    [ "Alert local authorities"; "Prepare evacuation routes";
      "Increase monitoring to hourly intervals";
      "Restrict access to vulnerable areas" ]
  | HIGH =>
    [ "Issue evacuation advisory"; "Mobilize emergency services";
      "Continuous real-time monitoring"; "Close roads in high-risk zones";
      "Activate emergency shelters" ]
  | SEVERE =>
    [ "IMMEDIATE EVACUATION REQUIRED"; "Deploy rescue teams";
      "Establish emergency command center";
      "Block all access to danger zones";
      "Activate disaster response protocols" ]
  end%string.

(** What a handler can raise. *)
Inductive Exception :=
| HTTPException (status_code : nat) (detail : string)
| ModelError
| ValidationError.

Definition HTTP_400_BAD_REQUEST : nat := 400.
Definition HTTP_500_INTERNAL_SERVER_ERROR : nat := 500.
Definition HTTP_503_SERVICE_UNAVAILABLE : nat := 503.

(** The outcome of a block of code: a value, or a raised exception. *)
Inductive result (A : Type) :=
| Return (a : A)
| Raise (e : Exception).

Arguments Return {A} a.
Arguments Raise {A} e.

Definition bind {A B} (r : result A) (k : A -> result B) : result B :=
  match r with
  | Return a => k a
  | Raise e => Raise e
  end.

Notation "'try!' x := c 'in' k" := (bind c (fun x => k))
  (at level 10, x name, c at level 100, k at level 200).

(** [model.predict_proba(features)[0][1]]. *)
Definition call_predict_proba (m : Model) (features : list R) : result R :=
  match predict_proba m features with
  | Some p => Return p
  | None => Raise ModelError
  end.

(** The risk-level mapping of [predict_single]. *)
Definition classify (settings : Settings) (probability : R) : RiskLevel :=
  if Rge_dec probability (SEVERE_RISK_THRESHOLD settings) then SEVERE
  else if Rge_dec probability (HIGH_RISK_THRESHOLD settings) then HIGH
  else if Rge_dec probability (MODERATE_RISK_THRESHOLD settings) then MODERATE
  else if Rge_dec probability (LOW_RISK_THRESHOLD settings) then LOW
  else VERY_LOW.

(** A Python [dict] as its items in insertion order; assignment to a key
    that is present keeps its position. *)
Fixpoint dict_set (k : string) (v : R) (d : list (string * R))
    : list (string * R) :=
  match d with
  | [] => [(k, v)]
  | (k', v') :: d' =>
    if decide (k' = k) then (k, v) :: d' else (k', v') :: dict_set k v d'
  end.

Definition dict_of_items (items : list (string * R)) : list (string * R) :=
  fold_left (fun d kv => dict_set (fst kv) (snd kv) d) items [].

(** [sorted(items, key=lambda x: x[1], reverse=True)]: descending and
    stable. *)
Fixpoint insert_desc (x : string * R) (l : list (string * R))
    : list (string * R) :=
  match l with
  | [] => [x]
  | y :: l' =>
    if Rlt_dec (snd x) (snd y) then y :: insert_desc x l' else x :: l
  end.

Definition sorted_desc (l : list (string * R)) : list (string * R) :=
  fold_right insert_desc [] l.

Definition member_names : list string :=
  [ "xgboost"; "lightgbm"; "random_forest"; "neural_network"; "svm" ]%string.

(** The loop that collects [model_predictions]. *)
Fixpoint collect_predictions (model_registry : ModelRegistry)
    (features : list R) (names : list string) : result (list R) :=
  match names with
  | [] => Return []
  | model_name :: rest =>
    match get_model model_registry model_name with
    | None => collect_predictions model_registry features rest
    | Some model =>
      try! pred := call_predict_proba model features in
      try! preds := collect_predictions model_registry features rest in
      Return (pred :: preds)
    end
  end.


(** The two lines that compute [confidence]. *)
Definition confidence_of (model_predictions : list R) : R :=
  let confidence :=
    if Nat.ltb 1 (length model_predictions)
    then 1 - Py.std model_predictions else 8 / 10 in
  Py.min (Py.max confidence 0) 1.

Section Handlers.

Variable settings : Settings.

(** [str(e)] of a raised exception and [datetime.utcnow()]. *)
Variable str : Exception -> string.
Variable utcnow : Z.

Definition xgb_feature_importance (model_registry : ModelRegistry)
    : list (string * R) :=
  match get_model model_registry "xgboost" with
  | Some xgb_model =>
    match feature_importances_ xgb_model with
    | Some importances =>
      sorted_desc
        (dict_of_items (combine (FEATURE_COLUMNS settings) importances))
    | None => []
    end
  | None => []
  end.

(** The constructor of [PredictionResponse] with its field constraints
    ([probability] and [confidence] in [0, 1]). *)
Definition make_response (request : PredictionRequest) (probability : R)
    (risk_level : RiskLevel) (confidence : R)
    (feature_importance : list (string * R)) : result PredictionResponse :=
  if Rle_dec 0 probability then
    if Rle_dec probability 1 then
      if Rle_dec 0 confidence then
        if Rle_dec confidence 1 then
          Return {| location_name := req_location_name request;
                    latitude := req_latitude request;
                    longitude := req_longitude request;
                    probability := probability;
                    risk_level := risk_level;
                    confidence := confidence;
                    feature_importance := feature_importance;
                    model_version := MODEL_VERSION settings;
                    timestamp := utcnow;
                    recommended_actions := set_recommended_actions risk_level |}
        else Raise ValidationError
      else Raise ValidationError
    else Raise ValidationError
  else Raise ValidationError.

(** The body of the [try] block of [predict_single]. *)
Definition predict_single_body (request : PredictionRequest)
    (model_registry : ModelRegistry) : result PredictionResponse :=
  let features := model_dump_values (req_features request) in
  match get_model model_registry "ensemble" with
  | None =>
    Raise (HTTPException HTTP_503_SERVICE_UNAVAILABLE
             "Ensemble model not available")
  | Some ensemble_model =>
    try! probability := call_predict_proba ensemble_model features in
    let risk_level := classify settings probability in
    let feature_importance := xgb_feature_importance model_registry in
    try! model_predictions :=
      collect_predictions model_registry features member_names in
    let confidence := confidence_of model_predictions in
    make_response request probability risk_level confidence
      feature_importance
  end.

(** [predict_single]: the [try] block under its single handler
    [except Exception as e], which catches every exception, an
    [HTTPException] raised in the block included. *)
Definition predict_single (request : PredictionRequest)
    (model_registry : ModelRegistry) : result PredictionResponse :=
  match predict_single_body request model_registry with
  | Return response => Return response
  | Raise e =>
    Raise (HTTPException HTTP_500_INTERNAL_SERVER_ERROR
             ("Prediction failed: " +:+ str e))
  end.

Fixpoint predict_each (locations : list PredictionRequest)
    (model_registry : ModelRegistry) : result (list PredictionResponse) :=
  match locations with
  | [] => Return []
  | location :: rest =>
    try! pred_response := predict_single location model_registry in
    try! predictions := predict_each rest model_registry in
    Return (pred_response :: predictions)
  end.

(** [predict_batch]: its handlers re-raise an [HTTPException] unchanged
    and turn only the other exceptions into a 500. *)
Definition predict_batch (locations : list PredictionRequest)
    (model_registry : ModelRegistry) : result BatchPredictionResponse :=
  let body :=
    if Nat.ltb (MAX_BATCH_SIZE settings) (length locations) then
      Raise (HTTPException HTTP_400_BAD_REQUEST
               ("Batch size exceeds maximum of "
                +:+ pretty (MAX_BATCH_SIZE settings)))
    else
      try! predictions := predict_each locations model_registry in
      Return {| predictions := predictions;
                total_locations := length predictions;
                batch_timestamp := utcnow;
                summary := calculate_summary predictions |} in
  match body with
  | Return response => Return response
  | Raise (HTTPException status_code detail) =>
    Raise (HTTPException status_code detail)
  | Raise e =>
    Raise (HTTPException HTTP_500_INTERNAL_SERVER_ERROR
             ("Batch prediction failed: " +:+ str e))
  end.

(** The [validate_batch_size] validator of [BatchPredictionRequest],
    which runs before the handler. *)
Definition validate_batch_size (v : list PredictionRequest)
    : result (list PredictionRequest) :=
  if Nat.ltb 100 (length v) then Raise ValidationError
  else if Nat.eqb (length v) 0 then Raise ValidationError
  else Return v.

(** [np.linspace(start, stop, num)] with its default [endpoint=True];
    [None] is the [ValueError] for a negative [num]. *)
Definition linspace (start stop : R) (num : Z) : option (list R) :=
  if Z.ltb num 0 then None
  else
    let n := Z.to_nat num in
    Some match n with
         | O => []
         | S O => [start]
         | S (S _) =>
           let step := (stop - start) / INR (n - 1) in
           map (fun i => INR i * step + start) (seq 0 (n - 1)) ++ [stop]
         end.

(** A cell of the risk grid. *)
Record Cell := {
  cell_latitude : R;
  cell_longitude : R;
  cell_probability : R
}.

(** The dictionary that [get_risk_zones] returns. *)
Record RiskZones := {
  grid : list (list Cell);
  grid_size : Z;
  bounds : R * R * R * R;
  zones_timestamp : Z
}.

(** The outcome of the [try] block of [get_risk_zones]: a value, an
    [HTTPException], or another exception given by its text. *)
Inductive outcome (A : Type) :=
| Done (a : A)
| Http (status_code : nat) (detail : string)
| Failed (msg : string).

#[global] Arguments Done {A} a.
#[global] Arguments Http {A} status_code detail.
#[global] Arguments Failed {A} msg.

(** A loop that appends one result per element and stops at the first
    exception. *)
Fixpoint for_each {A B} (f : A -> outcome B) (l : list A)
    : outcome (list B) :=
  match l with
  | [] => Done []
  | x :: rest =>
    match f x with
    | Done y =>
      match for_each f rest with
      | Done ys => Done (y :: ys)
      | Http status_code detail => Http status_code detail
      | Failed msg => Failed msg
      end
    | Http status_code detail => Http status_code detail
    | Failed msg => Failed msg
    end
  end.

(** [_generate_simulated_features] draws from [np.random]: the values it
    returns for a point, or the text of the exception it raises. *)
Variable _generate_simulated_features : R -> R -> string + list R.

(** The body of the inner loop of [get_risk_zones]. *)
Definition risk_cell (model_registry : ModelRegistry) (lat lon : R)
    : outcome Cell :=
  match _generate_simulated_features lat lon with
  | inl msg => Failed msg
  | inr features =>
    match get_model model_registry "ensemble" with
    | Some ensemble_model =>
      match predict_proba ensemble_model features with
      | Some prob =>
        Done {| cell_latitude := lat;
                cell_longitude := lon;
                cell_probability := prob |}
      | None => Failed (str ModelError)
      end
    | None =>
      Done {| cell_latitude := lat;
              cell_longitude := lon;
              cell_probability := 5 / 10 |}
    end
  end.

Definition get_risk_zones (min_latitude max_latitude : R)
    (min_longitude max_longitude : R) (size : Z)
    (model_registry : ModelRegistry) : result RiskZones :=
  let body :=
    if Z.ltb 50 size then
      Http HTTP_400_BAD_REQUEST "Grid size too large (max: 50x50)"
    else
      match linspace min_latitude max_latitude size,
            linspace min_longitude max_longitude size with
      | Some lat_points, Some lon_points =>
        match for_each
                (fun lat =>
                   for_each (risk_cell model_registry lat) lon_points)
                lat_points with
        | Done risk_grid =>
          Done {| grid := risk_grid;
                  grid_size := size;
                  bounds := (min_latitude, max_latitude,
                             min_longitude, max_longitude);
                  zones_timestamp := utcnow |}
        | Http status_code detail => Http status_code detail
        | Failed msg => Failed msg
        end
      | _, _ =>
        Failed ("Number of samples, " +:+ pretty size
                +:+ ", must be non-negative.")
      end in
  match body with
  | Done response => Return response
  | Http status_code detail => Raise (HTTPException status_code detail)
  | Failed msg =>
    Raise (HTTPException HTTP_500_INTERNAL_SERVER_ERROR
             ("Risk zone generation failed: " +:+ msg))
  end.

End Handlers.

End Endpoints.

(** ** [server/ml/predict.py] *)

Module Bridge.

Definition determine_final_risk (probability : R) : string :=
  if Rlt_dec probability (3 / 10) then "LOW"
  else if Rlt_dec probability (6 / 10) then "MODERATE"
  else if Rlt_dec probability (8 / 10) then "HIGH"
  else "CRITICAL".

(** A row of [landslide_events.csv]. *)
Record EventRow := {
  ev_latitude : R;
  ev_longitude : R;
  ev_district : string
}.

(** The events [DataFrame]: the rows read from the CSV file, which has
    the columns ['latitude'], ['longitude'] and ['district'], and the two
    columns ['distance'] and ['dist'] that the lookups assign on it
    ([None] while a column has not been assigned). *)
Record EventsFrame := {
  ev_rows : list EventRow;
  col_distance : option (list R);
  col_dist : option (list R)
}.

(** A row of [district_risk_rank.csv]. *)
Record DistrictRow := {
  dr_district : string;
  dr_rank : Z;
  dr_state : string
}.

(** The predictor object: the unpickled model ([predict_proba(X)[0][1]],
    or the message of the exception it raises), the feature names stored
    with it, and the two reference tables. *)
Record LandslideMLPredictor := {
  model : list R -> string + R;
  feature_names : option (list string);
  events_df : option EventsFrame;
  district_df : option (list DistrictRow)
}.

Definition set_events_df (self : LandslideMLPredictor) (df : EventsFrame)
    : LandslideMLPredictor :=
  {| model := model self;
     feature_names := feature_names self;
     events_df := Some df;
     district_df := district_df self |}.

(** The rows of the events table, none when the table failed to load. *)
Definition loaded_events (self : LandslideMLPredictor) : list EventRow :=
  match events_df self with
  | Some df => ev_rows df
  | None => []
  end.

Definition haversine_distance (lat1 lon1 lat2 lon2 : R) : R :=
  let R_ := 6371 in
  let dlat := Py.radians (lat2 - lat1) in
  let dlon := Py.radians (lon2 - lon1) in
  let a := sin (dlat / 2) ^ 2
           + cos (Py.radians lat1) * cos (Py.radians lat2)
             * sin (dlon / 2) ^ 2 in
  let c := 2 * Py.arctan2 (sqrt a) (sqrt (1 - a)) in
  R_ * c.

Definition Rleb (x y : R) : bool := if Rle_dec x y then true else false.

(** The ['distance'] column that [get_historical_score] computes. *)
Definition event_distances (latitude longitude : R) (rows : list EventRow)
    : list R :=
  map (fun row =>
         haversine_distance latitude longitude
           (ev_latitude row) (ev_longitude row)) rows.

(** The ['distance'] values of [nearby_events]. *)
Definition nearby_distances (radius_km : R) (distances : list R) : list R :=
  List.filter (fun d => Rleb d radius_km) distances.

Definition get_historical_score (self : LandslideMLPredictor)
    (latitude longitude radius_km : R) : R * LandslideMLPredictor :=
  match events_df self with
  | None => (0, self)
  | Some df =>
    match ev_rows df with
    | [] => (0, self)
    | _ :: _ =>
      let distances := event_distances latitude longitude (ev_rows df) in
      let self1 :=
        set_events_df self
          {| ev_rows := ev_rows df;
             col_distance := Some distances;
             col_dist := col_dist df |} in
      let nearby_events := nearby_distances radius_km distances in
      match nearby_events with
      | [] => (0, self1)
      | _ :: _ =>
        let event_count := length nearby_events in
        let avg_distance := Py.mean nearby_events in
        let count_score := Py.min (INR event_count / 10) 1 in
        let proximity_score := 1 - avg_distance / radius_km in
        (count_score * (6 / 10) + proximity_score * (4 / 10), self1)
      end
    end
  end.

Record DistrictInfo := {
  district_rank : Z;
  district_name : string;
  state_name : string;
  risk_multiplier : R
}.

(** The inner [distance] of [get_district_info]: planar, in degrees. *)
Definition distance (lat1 lon1 lat2 lon2 : R) : R :=
  sqrt ((lat1 - lat2) ^ 2 + (lon1 - lon2) ^ 2).

(** The ['dist'] column that [get_district_info] computes. *)
Definition event_dists (latitude longitude : R) (rows : list EventRow)
    : list R :=
  map (fun row =>
         distance latitude longitude (ev_latitude row) (ev_longitude row))
    rows.

(** [nsmallest(1, 'dist')]: the first row among those of least [dist]. *)
Fixpoint nsmallest1 (rows : list (EventRow * R)) : option (EventRow * R) :=
  match rows with
  | [] => None
  | x :: rest =>
    match nsmallest1 rest with
    | None => Some x
    | Some y => if Rlt_dec (snd y) (snd x) then Some y else Some x
    end
  end.

(** [str.lower] on ASCII letters. *)
Definition ascii_lower (c : ascii) : ascii :=
  let n := nat_of_ascii c in
  if Nat.leb 65 n && Nat.leb n 90 then ascii_of_nat (n + 32) else c.

Fixpoint lower (s : string) : string :=
  match s with
  | EmptyString => EmptyString
  | String c s' => String (ascii_lower c) (lower s')
  end.

Definition default_district_info : DistrictInfo :=
  {| district_rank := 0;
     district_name := "Unknown";
     state_name := "Unknown";
     risk_multiplier := 1 |}.

Definition get_district_info (self : LandslideMLPredictor)
    (latitude longitude : R) : DistrictInfo * LandslideMLPredictor :=
  match district_df self with
  | None | Some [] => (default_district_info, self)
  | Some ((_ :: _) as districts) =>
    match events_df self with
    | None => (default_district_info, self)
    | Some df =>
      match ev_rows df with
      | [] => (default_district_info, self)
      | _ :: _ =>
        let dists := event_dists latitude longitude (ev_rows df) in
        let self1 :=
          set_events_df self
            {| ev_rows := ev_rows df;
               col_distance := col_distance df;
               col_dist := Some dists |} in
        match nsmallest1 (combine (ev_rows df) dists) with
        | None => (default_district_info, self1)
        | Some (nearest, _) =>
          let name := ev_district nearest in
          let district_match :=
            List.filter
              (fun d => String.eqb (lower (dr_district d)) (lower name))
              districts in
          match district_match with
          | [] => (default_district_info, self1)
          | m :: _ =>
            let rank := dr_rank m in
            ({| district_rank := rank;
                district_name := name;
                state_name := dr_state m;
                risk_multiplier := Py.max 1 (2 - IZR rank / 72) |}, self1)
          end
        end
      end
    end
  end.

(** The dictionary [mapped_features] that [predict] fills when the model
    declares its feature names. *)
Definition mapped_features (features_dict : gmap string R)
    (current_month : Z) : gmap string R :=
  let rainfall_24h := default 0 (features_dict !! "rainfall_24h") in
  let rainfall_72h := default 0 (features_dict !! "rainfall_72h") in
  let eq_count := default 0 (features_dict !! "earthquake_count") in
  let eq_mag := default 0 (features_dict !! "max_earthquake_magnitude") in
  let pop_density := default 0 (features_dict !! "population_density") in
  let is_monsoon :=
    if Z.leb 6 current_month && Z.leb current_month 9 then 1 else 0 in
  let m : gmap string R := ∅ in
  let m := <["rainfall_trigger_prob" :=
               Py.min 1 ((rainfall_24h / 100 + rainfall_72h / 300) / 2)]> m in
  let m := <["trigger_rainfall" :=
               if Rgt_dec rainfall_24h 50 then 1 else 0]> m in
  let m := <["earthquake_trigger_prob" :=
               Py.min 1 ((eq_count / 10 + eq_mag / 10) / 2)]> m in
  let m := <["trigger_earthquake" :=
               if Rgt_dec eq_count 0 then 1 else 0]> m in
  let m := <["human_activity_trigger_prob" :=
               Py.min 1 (pop_density / 5000)]> m in
  let m := <["trigger_anthropogenic" :=
               if Rgt_dec pop_density 1000 then 1 else 0]> m in
  let m := <["monsoon_2014" := is_monsoon]> m in
  let m := <["monsoon_2017" := is_monsoon]> m in
  let m := <["field_based" := 0]> m in
  let m := <["event_based" := 1]> m in
  m.

Definition default_feature_list : list string :=
  [ "latitude"; "longitude"; "temperature"; "humidity"; "pressure";
    "wind_speed"; "rainfall_24h"; "rainfall_72h"; "elevation"; "slope";
    "earthquake_count"; "max_earthquake_magnitude"; "soil_moisture";
    "ndvi"; "distance_to_fault"; "population_density" ]%string.

(** Step 2 of [predict] up to [X = np.array([features])]: the feature
    list, and the vector handed to the model.  The list built from
    [mapped_features] in the first branch is assigned to [features], and
    the loop after the [if] assigns [features] again. *)
Definition build_features (self : LandslideMLPredictor)
    (features_dict : gmap string R) (current_month : Z)
    : list string * list R :=
  let feature_list :=
    if Py.truthy (feature_names self)
    then default [] (feature_names self)
    else default_feature_list in
  let features :=
    if Py.truthy (feature_names self)
    then
      let mapped := mapped_features features_dict current_month in
      map (fun fname => default 0 (mapped !! fname)) feature_list
    else [] in
  let features :=
    map (fun feature_name => default 0 (features_dict !! feature_name))
      feature_list in
  (feature_list, features).

(** Step 4 of [predict]. *)
Definition adjust (probability multiplier : R) : R :=
  Py.min (probability * multiplier) 1.

(** The dictionary that [predict] returns; a key that is absent is [None]. *)
Record PredictOutput := {
  success : bool;
  error : option string;
  ml_probability : R;
  raw_probability : option R;
  risk_level : string;
  confidence : R;
  feature_count : option nat;
  district_info : option DistrictInfo
}.

Definition predict (self : LandslideMLPredictor)
    (features_dict : gmap string R) (latitude longitude : R)
    (current_month : Z) : PredictOutput * LandslideMLPredictor :=
  let '(info, self1) := get_district_info self latitude longitude in
  let '(feature_list, features) :=
    build_features self1 features_dict current_month in
  match model self1 features with
  | inr probability =>
    let adjusted_probability := adjust probability (risk_multiplier info) in
    let conf := Py.abs (adjusted_probability - 5 / 10) * 2 in
    let level :=
      if Rlt_dec adjusted_probability (3 / 10) then "LOW"
      else if Rlt_dec adjusted_probability (6 / 10) then "MODERATE"
      else if Rlt_dec adjusted_probability (8 / 10) then "HIGH"
      else "CRITICAL" in
    ({| success := true;
        error := None;
        ml_probability := adjusted_probability;
        raw_probability := Some probability;
        risk_level := level;
        confidence := conf;
        feature_count := Some (length features);
        district_info := Some info |}, self1)
  | inl msg =>
    ({| success := false;
        error := Some ("ML prediction failed: " +:+ msg);
        ml_probability := 5 / 10;
        raw_probability := None;
        risk_level := "UNKNOWN";
        confidence := 0;
        feature_count := None;
        district_info := None |}, self1)
  end.

(** [_load_csv_reference_data], on the outcome of the two [pd.read_csv]
    calls it depends on ([None]: the call raises).  The events file is
    read first; when either read raises, the handler sets both tables to
    [None]. *)
Definition _load_csv_reference_data (events_csv : option (list EventRow))
    (district_csv : option (list DistrictRow))
    : option EventsFrame * option (list DistrictRow) :=
  match events_csv with
  | None => (None, None)
  | Some rows =>
    match district_csv with
    | None => (None, None)
    | Some districts =>
      (Some {| ev_rows := rows; col_distance := None; col_dist := None |},
       Some districts)
    end
  end.

(** [LandslideMLPredictor()] once the model file has been unpickled. *)
Definition new_predictor (loaded_model : list R -> string + R)
    (names : option (list string)) (events_csv : option (list EventRow))
    (district_csv : option (list DistrictRow)) : LandslideMLPredictor :=
  let tables := _load_csv_reference_data events_csv district_csv in
  {| model := loaded_model;
     feature_names := names;
     events_df := fst tables;
     district_df := snd tables |}.

(** The dictionary that [main] prints. *)
Record MainOutput := {
  main_success : bool;
  main_error : option string;
  ml_result : PredictOutput;
  historical_score : R;
  out_latitude : option R;
  out_longitude : option R
}.

Definition error_result (msg : string) : MainOutput :=
  {| main_success := false;
     main_error := Some msg;
     ml_result :=
       {| success := false;
          error := None;
          ml_probability := 5 / 10;
          raw_probability := None;
          risk_level := "UNKNOWN";
          confidence := 0;
          feature_count := None;
          district_info := None |};
     historical_score := 0;
     out_latitude := None;
     out_longitude := None |}.

(** [main] from the parsed input on: [latitude] and [longitude] are the
    values of the two keys ([None] when missing or null), [features] the
    dictionary under ['features'], and [input_keys] the text of
    [list(input_data.keys())]. *)
Definition main (predictor : LandslideMLPredictor)
    (latitude longitude : option R) (features : gmap string R)
    (input_keys : string) (current_month : Z)
    : MainOutput * LandslideMLPredictor :=
  match latitude, longitude with
  | Some lat, Some lon =>
    let features := <["longitude" := lon]> (<["latitude" := lat]> features) in
    let '(result, predictor1) :=
      predict predictor features lat lon current_month in
    if success result then
      let '(score, predictor2) :=
        get_historical_score predictor1 lat lon 50 in
      ({| main_success := true;
          main_error := None;
          ml_result := result;
          historical_score := score;
          out_latitude := Some lat;
          out_longitude := Some lon |}, predictor2)
    else
      (error_result
         (default "ML prediction returned failure" (error result)),
       predictor1)
  | _, _ =>
    (error_result
       ("Missing latitude or longitude. Input keys: " +:+ input_keys),
     predictor)
  end.

End Bridge.

(** ** Sample inputs *)

Module Samples.

Import ModelStore.

(** A classifier that answers one half on every input. *)
Definition half_model : Model :=
  {| predict_proba := fun _ => Some (1 / 2);
     feature_importances_ := None |}.

(** A registry that finished loading with two member models and no
    ensemble. *)
Definition members_only : ModelRegistry :=
  {| models := <["xgboost" := half_model]> (<["svm" := half_model]> ∅);
     model_metadata := ∅;
     loaded := true |}.

(** A freshly constructed registry on which [save_model] registered an
    ensemble. *)
Definition saved_on_fresh : ModelRegistry :=
  fst (save_model "ensemble" half_model None (init, ∅)).

(** A models directory that holds an ensemble artifact and nothing else. *)
Definition ensemble_disk : gmap string File :=
  {[ "ensemble_model.pkl"%string := ModelFile half_model ]}.

(** A non-empty metadata dictionary. *)
Definition sample_metadata : gmap string MetaValue :=
  {[ "version"%string := MStr "v1" ]}.

(** A registry that finished loading with an ensemble and no member. *)
Definition ensemble_only : ModelRegistry :=
  {| models := <["ensemble" := half_model]> ∅;
     model_metadata := ∅;
     loaded := true |}.

Definition sample_features : Endpoints.FeatureSet :=
  {| Endpoints.rainfall_intensity := 1505 / 10;
     Endpoints.soil_moisture := 653 / 10;
     Endpoints.ndvi := 45 / 100;
     Endpoints.slope_angle := 325 / 10;
     Endpoints.elevation := 1850;
     Endpoints.lithology_code := 5;
     Endpoints.land_use_code := 3;
     Endpoints.distance_to_road := 250;
     Endpoints.distance_to_river := 180;
     Endpoints.drainage_density := 18 / 10;
     Endpoints.curvature := 15 / 100;
     Endpoints.aspect := 135;
     Endpoints.twi := 85 / 10;
     Endpoints.historical_landslides := 3;
     Endpoints.precipitation_30d := 450;
     Endpoints.temperature := 225 / 10;
     Endpoints.humidity := 78 |}.

Definition sample_request : Endpoints.PredictionRequest :=
  {| Endpoints.req_location_name := "Kedarnath, Uttarakhand";
     Endpoints.req_latitude := 307346 / 10000;
     Endpoints.req_longitude := 790669 / 10000;
     Endpoints.req_features := sample_features |}.

(** A predictor whose model declares one derived feature and answers
    with the first entry of the vector it is given; no reference table. *)
Definition derived_predictor : Bridge.LandslideMLPredictor :=
  {| Bridge.model := fun X => inr (hd 0 X);
     Bridge.feature_names := Some ["rainfall_trigger_prob"%string];
     Bridge.events_df := None;
     Bridge.district_df := None |}.

(** Live data with 100 mm of rain in 24 hours and 300 mm in 72 hours. *)
Definition heavy_rain : gmap string R :=
  <["rainfall_24h" := 100]> (<["rainfall_72h" := 300]> ∅).

(** A predictor with one recorded event and one ranked district. *)
Definition one_event_predictor : Bridge.LandslideMLPredictor :=
  {| Bridge.model := fun _ => inr (1 / 2);
     Bridge.feature_names := None;
     Bridge.events_df :=
       Some {| Bridge.ev_rows :=
                 [ {| Bridge.ev_latitude := 30;
                      Bridge.ev_longitude := 79;
                      Bridge.ev_district := "Chamoli" |} ];
               Bridge.col_distance := None;
               Bridge.col_dist := None |};
     Bridge.district_df :=
       Some [ {| Bridge.dr_district := "chamoli";
                 Bridge.dr_rank := 36;
                 Bridge.dr_state := "Uttarakhand" |} ] |}.

(** A rendering of exceptions as text, for [str(e)]. *)
Definition sample_str (e : Endpoints.Exception) : string :=
  match e with
  | Endpoints.HTTPException _ detail => detail
  | Endpoints.ModelError => "model error"
  | Endpoints.ValidationError => "validation error"
  end.

End Samples.

(** ** Facts about the numeric helpers *)

Module PyFacts.

Lemma min_Rmin (a b : R) : Py.min a b = Rmin a b.
Proof.
  unfold Py.min, Rmin.
  destruct (Rlt_dec b a), (Rle_dec a b); lra.
Qed.

Lemma max_Rmax (a b : R) : Py.max a b = Rmax a b.
Proof.
  unfold Py.max, Rmax.
  destruct (Rlt_dec a b), (Rle_dec a b); lra.
Qed.

Lemma clamp_bounds (x : R) : 0 <= Py.min (Py.max x 0) 1 <= 1.
Proof.
  unfold Py.min, Py.max.
  destruct (Rlt_dec x 0); destruct (Rlt_dec 1 _); lra.
Qed.

End PyFacts.

(** ** The model registry *)

Module ModelStoreSpec.

Import ModelStore.

Lemma is_ready_spec (self : ModelRegistry) :
  is_ready self = true <->
  loaded self = true /\ is_Some (models self !! "ensemble").
Proof.
  unfold is_ready.
  rewrite andb_true_iff, bool_decide_eq_true.
  reflexivity.
Qed.

(** C7 as stated fails: on a freshly constructed registry,
    [save_model "ensemble"] populates the ensemble slot and [is_ready]
    still answers false, because [loaded] is only set by [load_models]. *)
Lemma is_ready_after_save_on_fresh :
  ~ (is_ready Samples.saved_on_fresh = true <->
     is_Some (models Samples.saved_on_fresh !! "ensemble")).
Proof.
  intros [_ H].
  assert (Hs : is_Some (models Samples.saved_on_fresh !! "ensemble")).
  { unfold Samples.saved_on_fresh. simpl. rewrite lookup_insert_eq. eauto. }
  specialize (H Hs).
  apply is_ready_spec in H. destruct H as [H _].
  discriminate H.
Qed.

(** C7, amended: [is_ready] answers true exactly when the [loaded] flag is
    set and the models map has the key "ensemble"; registering or
    unloading any other slot, and any change of the metadata, leaves the
    answer unchanged. *)
Theorem is_ready_loaded_and_ensemble (self : ModelRegistry) :
  (is_ready self = true <->
   loaded self = true /\ is_Some (models self !! "ensemble")) /\
  (forall (name : string) (m : Model) (md : option (gmap string MetaValue))
          (disk : gmap string File),
     name <> "ensemble"%string ->
     is_ready (fst (save_model name m md (self, disk))) = is_ready self /\
     is_ready (unload_model name self) = is_ready self).
Proof.
  split; [apply is_ready_spec|].
  intros name m md disk Hne.
  unfold is_ready, save_model, unload_model.
  destruct (metadata_given md); simpl;
    rewrite lookup_insert_ne, lookup_delete_ne by congruence; auto.
Qed.

Lemma is_ready_loaded_and_ensemble_witness :
  "xgboost"%string <> "ensemble"%string /\
  is_ready (unload_model "xgboost" Samples.members_only)
  = is_ready Samples.members_only.
Proof.
  assert (H : "xgboost"%string <> "ensemble"%string) by discriminate.
  split; [exact H|].
  exact (proj2 (proj2 (is_ready_loaded_and_ensemble Samples.members_only)
                  "xgboost"%string Samples.half_model None ∅ H)).
Defined.

Lemma load_one_count (disk : gmap string File)
    (st : ModelRegistry * nat) (entry : string * string) :
  (snd st <= snd (load_one disk st entry))%nat.
Proof.
  destruct st as [self n], entry as [name file]. unfold load_one.
  destruct (disk !! file) as [f|]; simpl; [|lia].
  destruct (joblib_load f); simpl; [|lia].
  destruct (disk !! (name +:+ "_metadata.pkl")) as [mf|]; simpl; [|lia].
  destruct (pickle_load mf); simpl; lia.
Qed.

Lemma load_one_metadata (disk : gmap string File)
    (st : ModelRegistry * nat) (entry : string * string) :
  snd (load_one disk st entry) = snd st ->
  model_metadata (fst (load_one disk st entry)) = model_metadata (fst st).
Proof.
  destruct st as [self n], entry as [name file]. unfold load_one.
  destruct (disk !! file) as [f|]; simpl; [|reflexivity].
  destruct (joblib_load f); simpl; [|reflexivity].
  destruct (disk !! (name +:+ "_metadata.pkl")) as [mf|]; simpl;
    [|reflexivity].
  destruct (pickle_load mf); simpl; [lia|reflexivity].
Qed.

Lemma load_loop_count (disk : gmap string File)
    (entries : list (string * string)) (st : ModelRegistry * nat) :
  (snd st <= snd (fold_left (load_one disk) entries st))%nat.
Proof.
  revert st. induction entries as [|e entries IH]; intros st; simpl.
  - lia.
  - pose proof (load_one_count disk st e).
    pose proof (IH (load_one disk st e)). lia.
Qed.

(** While [loaded_count] stays where it was, the loop has stored no
    metadata. *)
Lemma load_loop_metadata (disk : gmap string File)
    (entries : list (string * string)) (st : ModelRegistry * nat) :
  snd (fold_left (load_one disk) entries st) = snd st ->
  model_metadata (fst (fold_left (load_one disk) entries st))
  = model_metadata (fst st).
Proof.
  revert st. induction entries as [|e entries IH]; intros st H; simpl in *.
  - reflexivity.
  - pose proof (load_one_count disk st e) as H1.
    pose proof (load_loop_count disk entries (load_one disk st e)) as H2.
    rewrite IH by lia.
    apply load_one_metadata. lia.
Qed.

(** C8 as stated fails: with an empty models directory the loop loads
    nothing, the stand-in models are registered, and the metadata of the
    ensemble slot carries no [is_fallback] entry. *)
Lemma dummy_models_not_flagged :
  let r := load_models Samples.half_model Samples.half_model ∅ init in
  loaded_count ∅ init = O /\
  ~ (is_Some (models r !! "ensemble") /\
     get_metadata r "ensemble" !! "is_fallback" = Some (MBool true)).
Proof.
  split; [reflexivity|].
  intros [_ H]. discriminate H.
Qed.

(** C8, amended: when the loop of [load_models] ends with [loaded_count]
    zero, the stand-in classifier is registered under "ensemble" and under
    the five member names, the stand-in scaler under "preprocessor", the
    registry is ready, and the metadata map is left as it was: no
    metadata is recorded for the stand-ins, so on a fresh registry every
    slot reports the empty metadata. *)
Theorem load_models_fallback (dummy_model scaler : Model)
    (disk : gmap string File) (self : ModelRegistry) :
  loaded_count disk self = O ->
  let r := load_models dummy_model scaler disk self in
  models r !! "ensemble" = Some dummy_model /\
  (forall name, In name Endpoints.member_names ->
     models r !! name = Some dummy_model) /\
  models r !! "preprocessor" = Some scaler /\
  is_ready r = true /\
  model_metadata r = model_metadata self /\
  (model_metadata self = ∅ -> forall name, get_metadata r name = ∅).
Proof.
  intros Hcount r.
  assert (Hmeta : model_metadata r = model_metadata self).
  { subst r. unfold load_models, loaded_count in *.
    pose proof (load_loop_metadata disk model_files (self, O)) as Hm.
    destruct (fold_left (load_one disk) model_files (self, O)) as [self1 n].
    simpl in *. subst n. simpl. auto. }
  assert (Hmodels : models r
    = <["preprocessor" := scaler]> (<["neural_network" := dummy_model]>
        (<["svm" := dummy_model]> (<["random_forest" := dummy_model]>
          (<["lightgbm" := dummy_model]> (<["xgboost" := dummy_model]>
            (<["ensemble" := dummy_model]>
               (models (fst (fold_left (load_one disk) model_files
                                (self, O))))))))))).
  { subst r. unfold load_models, loaded_count in *.
    destruct (fold_left (load_one disk) model_files (self, O)) as [self1 n].
    simpl in *. subst n. reflexivity. }
  assert (He : models r !! "ensemble" = Some dummy_model).
  { rewrite Hmodels. by simplify_map_eq. }
  repeat split.
  - exact He.
  - intros name Hin. rewrite Hmodels.
    simpl in Hin.
    destruct Hin as [<-|[<-|[<-|[<-|[<-|[]]]]]]; by simplify_map_eq.
  - rewrite Hmodels. by simplify_map_eq.
  - apply is_ready_spec. split; [|rewrite He; eauto].
    subst r. unfold load_models.
    destruct (fold_left (load_one disk) model_files (self, O)).
    reflexivity.
  - exact Hmeta.
  - intros Hempty name. unfold get_metadata.
    rewrite Hmeta, Hempty, lookup_empty. reflexivity.
Qed.

Lemma load_models_fallback_witness :
  loaded_count ∅ init = O /\
  is_ready (load_models Samples.half_model Samples.half_model ∅ init) = true.
Proof.
  assert (H : loaded_count ∅ init = O) by reflexivity.
  split; [exact H|].
  exact (proj1 (proj2 (proj2 (proj2
    (load_models_fallback Samples.half_model Samples.half_model ∅ init H))))).
Defined.

End ModelStoreSpec.

(** ** The prediction endpoint *)

Module EndpointsSpec.

Import Config ModelStore Endpoints.

(** C1: under ascending thresholds the risk-level mapping of
    [predict_single] sends every probability to the tier whose half-open
    interval contains it: the five intervals cover the line without
    overlap, and each threshold itself belongs to the tier above it. *)
Theorem classify_partition (s : Settings) (p : R) :
  LOW_RISK_THRESHOLD s < MODERATE_RISK_THRESHOLD s ->
  MODERATE_RISK_THRESHOLD s < HIGH_RISK_THRESHOLD s ->
  HIGH_RISK_THRESHOLD s < SEVERE_RISK_THRESHOLD s ->
  (classify s p = VERY_LOW <-> p < LOW_RISK_THRESHOLD s) /\
  (classify s p = LOW <->
     LOW_RISK_THRESHOLD s <= p < MODERATE_RISK_THRESHOLD s) /\
  (classify s p = MODERATE <->
     MODERATE_RISK_THRESHOLD s <= p < HIGH_RISK_THRESHOLD s) /\
  (classify s p = HIGH <->
     HIGH_RISK_THRESHOLD s <= p < SEVERE_RISK_THRESHOLD s) /\
  (classify s p = SEVERE <-> SEVERE_RISK_THRESHOLD s <= p) /\
  classify s (LOW_RISK_THRESHOLD s) = LOW /\
  classify s (MODERATE_RISK_THRESHOLD s) = MODERATE /\
  classify s (HIGH_RISK_THRESHOLD s) = HIGH /\
  classify s (SEVERE_RISK_THRESHOLD s) = SEVERE.
Proof.
  intros H1 H2 H3. unfold classify.
  destruct (Rge_dec p (SEVERE_RISK_THRESHOLD s)),
           (Rge_dec p (HIGH_RISK_THRESHOLD s)),
           (Rge_dec p (MODERATE_RISK_THRESHOLD s)),
           (Rge_dec p (LOW_RISK_THRESHOLD s));
    repeat split; intros;
    repeat match goal with
           | |- context [Rge_dec ?a ?b] => destruct (Rge_dec a b)
           end;
    try discriminate; try reflexivity; lra.
Qed.

Lemma classify_partition_witness :
  classify settings (3 / 10) = LOW /\
  classify settings (5 / 10) = MODERATE /\
  classify settings (7 / 10) = HIGH /\
  classify settings (9 / 10) = SEVERE.
Proof.
  assert (H1 : LOW_RISK_THRESHOLD settings < MODERATE_RISK_THRESHOLD settings)
    by (simpl; lra).
  assert (H2 : MODERATE_RISK_THRESHOLD settings < HIGH_RISK_THRESHOLD settings)
    by (simpl; lra).
  assert (H3 : HIGH_RISK_THRESHOLD settings < SEVERE_RISK_THRESHOLD settings)
    by (simpl; lra).
  exact (proj2 (proj2 (proj2 (proj2 (proj2
    (classify_partition settings 0 H1 H2 H3)))))).
Defined.

Section Handlers.

Variable settings : Settings.
Variable str : Exception -> string.
Variable utcnow : Z.

(** C2, what the code does: without an ensemble the 503 raised in the
    [try] block is caught by the handler of [predict_single] itself, and
    the caller receives a 500 whose detail quotes the 503. *)
Theorem predict_single_without_ensemble (request : PredictionRequest)
    (model_registry : ModelRegistry) :
  get_model model_registry "ensemble" = None ->
  predict_single settings str utcnow request model_registry
  = Raise (HTTPException 500
             ("Prediction failed: "
              +:+ str (HTTPException 503 "Ensemble model not available"))).
Proof.
  intros H. unfold predict_single, predict_single_body.
  rewrite H. reflexivity.
Qed.

(** [predict_single] returns whenever the ensemble is registered, every
    registered model answers, and the ensemble's answer is a
    probability. *)
Lemma predict_single_returns (request : PredictionRequest)
    (model_registry : ModelRegistry) (ensemble_model : Model)
    (p : R) (preds : list R) :
  get_model model_registry "ensemble" = Some ensemble_model ->
  predict_proba ensemble_model (model_dump_values (req_features request))
  = Some p ->
  0 <= p <= 1 ->
  collect_predictions model_registry
    (model_dump_values (req_features request)) member_names = Return preds ->
  exists response,
    predict_single settings str utcnow request model_registry
    = Return response /\
    probability response = p /\
    risk_level response = classify settings p /\
    confidence response = confidence_of preds.
Proof.
  intros He Hp Hr Hc.
  unfold predict_single, predict_single_body.
  rewrite He, Hc. unfold call_predict_proba. rewrite Hp.
  cbv beta iota delta [bind]. unfold make_response.
  pose proof (PyFacts.clamp_bounds
    (if Nat.ltb 1 (length preds) then 1 - Py.std preds else 8 / 10)) as Hb.
  fold (confidence_of preds) in Hb.
  destruct (Rle_dec 0 p); [|lra].
  destruct (Rle_dec p 1); [|lra].
  destruct (Rle_dec 0 (confidence_of preds)); [|lra].
  destruct (Rle_dec (confidence_of preds) 1); [|lra].
  eexists. split; [reflexivity|]. simpl. auto.
Qed.




End Handlers.

Lemma predict_single_without_ensemble_witness :
  get_model Samples.members_only "ensemble" = None /\
  predict_single settings Samples.sample_str 0 Samples.sample_request
    Samples.members_only
  = Raise (HTTPException 500
             "Prediction failed: Ensemble model not available").
Proof.
  assert (H : get_model Samples.members_only "ensemble" = None)
    by reflexivity.
  split; [exact H|].
  exact (predict_single_without_ensemble settings Samples.sample_str 0
           Samples.sample_request Samples.members_only H).
Defined.

Lemma sample_prediction_returns :
  exists response,
    predict_single settings Samples.sample_str 0 Samples.sample_request
      Samples.ensemble_only = Return response /\
    probability response = 1 / 2 /\
    risk_level response = classify settings (1 / 2) /\
    confidence response = confidence_of [].
Proof.
  apply (predict_single_returns settings Samples.sample_str 0
           Samples.sample_request Samples.ensemble_only Samples.half_model);
    try reflexivity.
  lra.
Qed.


End EndpointsSpec.

(** ** The backend bridge *)

Module BridgeSpec.

Import Bridge.

Lemma build_features_direct (self : LandslideMLPredictor)
    (features_dict : gmap string R) (current_month : Z) :
  snd (build_features self features_dict current_month)
  = map (fun feature_name => default 0 (features_dict !! feature_name))
      (fst (build_features self features_dict current_month)).
Proof. reflexivity. Qed.

(** C3, what the code does: the vector handed to the model is read name
    by name from the caller's mapping.  For a model that declares
    [rainfall_trigger_prob], with 100 mm and 300 mm of rain, the derived
    value is 1 and the model receives 0. *)
Theorem derived_features_overwritten :
  (forall self features_dict current_month,
     snd (build_features self features_dict current_month)
     = map (fun feature_name => default 0 (features_dict !! feature_name))
         (fst (build_features self features_dict current_month))) /\
  mapped_features Samples.heavy_rain 7 !! "rainfall_trigger_prob" = Some 1 /\
  build_features Samples.derived_predictor Samples.heavy_rain 7
  = (["rainfall_trigger_prob"%string], [0]) /\
  raw_probability
    (fst (predict Samples.derived_predictor Samples.heavy_rain 30 79 7))
  = Some 0.
Proof.
  split; [intros; apply build_features_direct|].
  split; [|split; reflexivity].
  unfold mapped_features.
  rewrite !lookup_insert_ne by discriminate.
  rewrite lookup_insert_eq. f_equal.
  change (default 0 (Samples.heavy_rain !! "rainfall_24h")) with 100.
  change (default 0 (Samples.heavy_rain !! "rainfall_72h")) with 300.
  unfold Py.min.
  destruct (Rlt_dec ((100 / 100 + 300 / 300) / 2) 1); lra.
Qed.

(** *** What the lookups leave in the predictor *)

Lemma get_historical_score_state (self : LandslideMLPredictor)
    (latitude longitude radius_km : R) :
  snd (get_historical_score self latitude longitude radius_km)
  = match events_df self with
    | Some df =>
      match ev_rows df with
      | [] => self
      | _ :: _ =>
        set_events_df self
          {| ev_rows := ev_rows df;
             col_distance :=
               Some (event_distances latitude longitude (ev_rows df));
             col_dist := col_dist df |}
      end
    | None => self
    end.
Proof.
  unfold get_historical_score.
  destruct (events_df self) as [df|]; [|reflexivity].
  destruct (ev_rows df) as [|row rows]; [reflexivity|].
  cbv zeta.
  destruct (nearby_distances radius_km _); reflexivity.
Qed.

Lemma get_district_info_state (self : LandslideMLPredictor)
    (latitude longitude : R) :
  snd (get_district_info self latitude longitude)
  = match district_df self with
    | None | Some [] => self
    | Some (_ :: _) =>
      match events_df self with
      | Some df =>
        match ev_rows df with
        | [] => self
        | _ :: _ =>
          set_events_df self
            {| ev_rows := ev_rows df;
               col_distance := col_distance df;
               col_dist := Some (event_dists latitude longitude (ev_rows df)) |}
        end
      | None => self
      end
    end.
Proof.
  unfold get_district_info.
  destruct (district_df self) as [[|d ds]|]; try reflexivity.
  destruct (events_df self) as [df|]; [|reflexivity].
  destruct (ev_rows df) as [|row rows]; [reflexivity|].
  cbv zeta.
  destruct (nsmallest1 _) as [[nearest dmin]|]; [|reflexivity].
  destruct (List.filter _ _); reflexivity.
Qed.

Lemma get_historical_score_frame (self : LandslideMLPredictor)
    (latitude longitude radius_km : R) :
  let self1 := snd (get_historical_score self latitude longitude radius_km) in
  district_df self1 = district_df self /\
  loaded_events self1 = loaded_events self /\
  model self1 = model self /\
  feature_names self1 = feature_names self.
Proof.
  cbv zeta. rewrite get_historical_score_state. unfold loaded_events.
  destruct (events_df self) as [df|] eqn:He; [|rewrite ?He; auto].
  destruct (ev_rows df) eqn:Hr; simpl; rewrite ?He, ?Hr; auto.
Qed.

Lemma get_district_info_frame (self : LandslideMLPredictor)
    (latitude longitude : R) :
  let self1 := snd (get_district_info self latitude longitude) in
  district_df self1 = district_df self /\
  loaded_events self1 = loaded_events self /\
  model self1 = model self /\
  feature_names self1 = feature_names self.
Proof.
  cbv zeta. rewrite get_district_info_state. unfold loaded_events.
  destruct (district_df self) as [[|d ds]|] eqn:Hd; rewrite ?Hd; auto.
  destruct (events_df self) as [df|] eqn:He; [|rewrite ?He, ?Hd; auto].
  destruct (ev_rows df) eqn:Hr; simpl; rewrite ?He, ?Hr, ?Hd; auto.
Qed.

(** C9 as stated fails: with one recorded event, [get_historical_score]
    returns with a ['distance'] column assigned on the events table. *)
Lemma historical_score_assigns_distance :
  let self := Samples.one_event_predictor in
  let self1 := snd (get_historical_score self 30 79 50) in
  ~ (events_df self1 = events_df self /\ district_df self1 = district_df self).
Proof.
  cbv zeta. rewrite get_historical_score_state. simpl.
  intros [H _]. discriminate H.
Qed.

(** C9, amended: both lookups leave the district-rank table, the rows of
    the events table, the model and the feature names as they were.  On
    a loaded, non-empty events table [get_historical_score] assigns the
    column ['distance'], and [get_district_info] (when the district table
    is loaded and non-empty) assigns the column ['dist']; in every other
    case the predictor is returned unchanged. *)
Theorem lookups_frame (self : LandslideMLPredictor)
    (latitude longitude radius_km : R) :
  let self1 := snd (get_historical_score self latitude longitude radius_km) in
  let self2 := snd (get_district_info self latitude longitude) in
  (district_df self1 = district_df self /\
   loaded_events self1 = loaded_events self /\
   model self1 = model self /\
   feature_names self1 = feature_names self) /\
  (district_df self2 = district_df self /\
   loaded_events self2 = loaded_events self /\
   model self2 = model self /\
   feature_names self2 = feature_names self) /\
  (forall df,
     events_df self = Some df -> ev_rows df <> [] ->
     events_df self1
     = Some {| ev_rows := ev_rows df;
               col_distance :=
                 Some (event_distances latitude longitude (ev_rows df));
               col_dist := col_dist df |}) /\
  (forall df districts,
     events_df self = Some df -> ev_rows df <> [] ->
     district_df self = Some districts -> districts <> [] ->
     events_df self2
     = Some {| ev_rows := ev_rows df;
               col_distance := col_distance df;
               col_dist :=
                 Some (event_dists latitude longitude (ev_rows df)) |}) /\
  (loaded_events self = [] -> self1 = self /\ self2 = self).
Proof.
  cbv zeta.
  split; [apply get_historical_score_frame|].
  split; [apply get_district_info_frame|].
  rewrite get_historical_score_state, get_district_info_state.
  unfold loaded_events.
  split; [|split; [|intros Hempty; split]].
  - intros df -> Hrows. destruct (ev_rows df); [congruence|reflexivity].
  - intros df districts -> Hrows -> Hd.
    destruct districts; [congruence|].
    destruct (ev_rows df); [congruence|reflexivity].
  - destruct (events_df self) as [df|]; [|reflexivity].
    rewrite Hempty. reflexivity.
  - destruct (district_df self) as [[|d ds]|]; try reflexivity.
    destruct (events_df self) as [df|]; [|reflexivity].
    rewrite Hempty. reflexivity.
Qed.

Lemma lookups_frame_witness :
  events_df (snd (get_historical_score Samples.one_event_predictor 30 79 50))
  = Some {| ev_rows := loaded_events Samples.one_event_predictor;
            col_distance :=
              Some (event_distances 30 79
                      (loaded_events Samples.one_event_predictor));
            col_dist := None |}.
Proof.
  refine (proj1 (proj2 (proj2
    (lookups_frame Samples.one_event_predictor 30 79 50))) _ _ _).
  - reflexivity.
  - simpl. discriminate.
Defined.

Lemma build_features_names (self1 self2 : LandslideMLPredictor)
    (features_dict : gmap string R) (current_month : Z) :
  feature_names self1 = feature_names self2 ->
  build_features self1 features_dict current_month
  = build_features self2 features_dict current_month.
Proof. unfold build_features. intros ->. reflexivity. Qed.

(** [predict] on the model's answer: the two shapes of its result. *)
Lemma predict_cases (self : LandslideMLPredictor)
    (features_dict : gmap string R) (latitude longitude : R)
    (current_month : Z) :
  let out := fst (predict self features_dict latitude longitude current_month) in
  let info := fst (get_district_info self latitude longitude) in
  let features := snd (build_features self features_dict current_month) in
  (exists p,
     model self features = inr p /\
     success out = true /\
     raw_probability out = Some p /\
     district_info out = Some info /\
     ml_probability out = adjust p (risk_multiplier info) /\
     risk_level out = determine_final_risk (ml_probability out) /\
     confidence out = Py.abs (ml_probability out - 5 / 10) * 2 /\
     feature_count out = Some (length features)) \/
  (exists msg,
     model self features = inl msg /\
     success out = false /\
     risk_level out = "UNKNOWN"%string /\
     ml_probability out = 5 / 10 /\
     confidence out = 0).
Proof.
  cbv zeta. unfold predict.
  pose proof (get_district_info_frame self latitude longitude) as Hf.
  cbv zeta in Hf. destruct Hf as (_ & _ & Hm & Hn).
  destruct (get_district_info self latitude longitude) as [info self1].
  simpl in Hm, Hn. unfold build_features. cbv zeta. simpl fst. simpl snd.
  rewrite Hm, Hn.
  destruct (model self _) as [msg|p].
  - right. exists msg. simpl. auto.
  - left. exists p. simpl. unfold determine_final_risk. auto 10.
Qed.


Lemma risk_multiplier_ge_1 (self : LandslideMLPredictor)
    (latitude longitude : R) :
  1 <= risk_multiplier (fst (get_district_info self latitude longitude)).
Proof.
  unfold get_district_info.
  destruct (district_df self) as [[|d ds]|]; try (simpl; lra).
  destruct (events_df self) as [df|]; try (simpl; lra).
  destruct (ev_rows df) as [|row rows]; try (simpl; lra).
  cbv zeta.
  destruct (nsmallest1 _) as [[nearest dmin]|]; try (simpl; lra).
  destruct (List.filter _ _); try (simpl; lra).
  simpl. rewrite PyFacts.max_Rmax. apply Rmax_l.
Qed.

(** C5: for a raw probability [p] in [0, 1] and a multiplier [m >= 1]
    the adjusted probability is [min(p * m, 1)]: it is what [predict]
    reports as [ml_probability], it never exceeds 1 and does not
    decrease when the multiplier grows; 0.5 at 1.5 gives 0.75 and 0.6 at
    1.8 gives 1. *)
Theorem adjust_min_monotone (p m : R) :
  0 <= p <= 1 ->
  1 <= m ->
  adjust p m = Rmin (p * m) 1 /\
  adjust p m <= 1 /\
  (forall m', m <= m' -> adjust p m <= adjust p m') /\
  (forall self features_dict latitude longitude current_month,
     model self (snd (build_features self features_dict current_month))
     = inr p ->
     risk_multiplier (fst (get_district_info self latitude longitude)) = m ->
     ml_probability
       (fst (predict self features_dict latitude longitude current_month))
     = Rmin (p * m) 1) /\
  adjust (5 / 10) (15 / 10) = 75 / 100 /\
  adjust (6 / 10) (18 / 10) = 1.
Proof.
  intros Hp Hm. unfold adjust. rewrite !PyFacts.min_Rmin.
  split; [reflexivity|].
  split; [apply Rmin_r|].
  split.
  { intros m' Hle. rewrite PyFacts.min_Rmin.
    assert (p * m <= p * m') by nra.
    unfold Rmin.
    destruct (Rle_dec (p * m) 1), (Rle_dec (p * m') 1); lra. }
  split.
  { intros self features_dict latitude longitude current_month Hmodel Hmult.
    destruct (predict_cases self features_dict latitude longitude
                current_month)
      as [(p' & Hp' & _ & _ & _ & Hml & _)|(msg & Hmsg & _)];
      [|congruence].
    rewrite Hml, Hmult. unfold adjust. rewrite PyFacts.min_Rmin.
    congruence. }
  unfold Rmin.
  destruct (Rle_dec (5 / 10 * (15 / 10)) 1),
           (Rle_dec (6 / 10 * (18 / 10)) 1); lra.
Qed.

Lemma adjust_min_monotone_witness :
  adjust (5 / 10) (15 / 10) = 75 / 100 /\
  adjust (5 / 10) (15 / 10) <= 1.
Proof.
  assert (Hp : 0 <= 5 / 10 <= 1) by lra.
  assert (Hm : 1 <= 15 / 10) by lra.
  pose proof (adjust_min_monotone (5 / 10) (15 / 10) Hp Hm) as H.
  split; [exact (proj1 (proj2 (proj2 (proj2 (proj2 H)))))|].
  exact (proj1 (proj2 H)).
Defined.

(** *** The historical score *)

Lemma arctan2_nonneg (y x : R) : 0 <= y -> 0 <= x -> 0 <= Py.arctan2 y x.
Proof.
  intros Hy Hx. unfold Py.arctan2.
  destruct (Rlt_dec 0 x) as [Hpos|_].
  - assert (Hq : 0 <= y / x).
    { apply Rmult_le_pos; [exact Hy|].
      left. apply Rinv_0_lt_compat. exact Hpos. }
    destruct Hq as [Hq|<-].
    + left. rewrite <- atan_0. apply atan_increasing. exact Hq.
    + rewrite atan_0. lra.
  - destruct (Rlt_dec x 0); [lra|].
    destruct (Rlt_dec 0 y); [pose proof PI_RGT_0; lra|].
    destruct (Rlt_dec y 0); lra.
Qed.

Lemma haversine_nonneg (lat1 lon1 lat2 lon2 : R) :
  0 <= haversine_distance lat1 lon1 lat2 lon2.
Proof.
  unfold haversine_distance. cbv zeta.
  match goal with
  | |- 0 <= 6371 * (2 * Py.arctan2 ?y ?x) =>
    pose proof (arctan2_nonneg y x (sqrt_pos _) (sqrt_pos _))
  end.
  lra.
Qed.

Lemma sum_bounds (r : R) (xs : list R) :
  (forall d, In d xs -> 0 <= d <= r) ->
  0 <= Py.sum xs <= r * INR (length xs).
Proof.
  induction xs as [|x xs IH]; intros H.
  - simpl. lra.
  - assert (Hx : 0 <= x <= r) by (apply H; left; reflexivity).
    assert (Hxs : 0 <= Py.sum xs <= r * INR (length xs)).
    { apply IH. intros d Hd. apply H. right. exact Hd. }
    change (length (x :: xs)) with (S (length xs)).
    rewrite S_INR. simpl Py.sum. lra.
Qed.

Lemma mean_bounds (r : R) (xs : list R) :
  xs <> [] ->
  (forall d, In d xs -> 0 <= d <= r) ->
  0 <= Py.mean xs <= r.
Proof.
  intros Hne H. unfold Py.mean.
  pose proof (sum_bounds r xs H) as Hs.
  assert (Hn : 0 < INR (length xs)).
  { destruct xs; [congruence|].
    change (length (r0 :: xs)) with (S (length xs)).
    rewrite S_INR. pose proof (pos_INR (length xs)). lra. }
  split.
  - apply Rmult_le_pos; [lra|]. left. apply Rinv_0_lt_compat. exact Hn.
  - apply Rmult_le_reg_r with (INR (length xs)); [exact Hn|].
    unfold Rdiv. rewrite Rmult_assoc, Rinv_l by lra. lra.
Qed.

Lemma nearby_distances_In (radius_km : R) (distances : list R) (d : R) :
  In d (nearby_distances radius_km distances) <->
  In d distances /\ d <= radius_km.
Proof.
  unfold nearby_distances. rewrite filter_In. unfold Rleb.
  destruct (Rle_dec d radius_km); intuition (try discriminate; auto).
Qed.

Lemma event_distances_In (latitude longitude : R) (rows : list EventRow)
    (d : R) :
  In d (event_distances latitude longitude rows) <->
  exists row,
    In row rows /\
    d = haversine_distance latitude longitude
          (ev_latitude row) (ev_longitude row).
Proof.
  unfold event_distances. rewrite in_map_iff.
  split; intros (row & H1 & H2); exists row; auto.
Qed.

(** The score as a function of the distances within the radius. *)
Lemma get_historical_score_value (self : LandslideMLPredictor)
    (latitude longitude radius_km : R) :
  fst (get_historical_score self latitude longitude radius_km)
  = match nearby_distances radius_km
            (event_distances latitude longitude (loaded_events self)) with
    | [] => 0
    | (_ :: _) as nearby =>
      Py.min (INR (length nearby) / 10) 1 * (6 / 10)
      + (1 - Py.mean nearby / radius_km) * (4 / 10)
    end.
Proof.
  unfold get_historical_score, loaded_events.
  destruct (events_df self) as [df|]; [|reflexivity].
  destruct (ev_rows df) as [|row rows]; [reflexivity|].
  cbv zeta.
  destruct (nearby_distances radius_km _); reflexivity.
Qed.


Lemma score_formula (self : LandslideMLPredictor)
    (latitude longitude radius_km : R) :
  let nearby :=
    nearby_distances radius_km
      (event_distances latitude longitude (loaded_events self)) in
  nearby <> [] ->
  fst (get_historical_score self latitude longitude radius_km)
  = 6 / 10 * Rmin (INR (length nearby) / 10) 1
    + 4 / 10 * (1 - Py.mean nearby / radius_km).
Proof.
  cbv zeta. intros Hne. rewrite get_historical_score_value.
  destruct (nearby_distances radius_km _) as [|d ds]; [congruence|].
  cbv beta iota zeta. rewrite PyFacts.min_Rmin. ring.
Qed.


Lemma haversine_same_point (latitude longitude : R) :
  haversine_distance latitude longitude latitude longitude = 0.
Proof.
  unfold haversine_distance, Py.radians. cbv zeta.
  replace ((latitude - latitude) * PI / 180 / 2) with 0 by lra.
  replace ((longitude - longitude) * PI / 180 / 2) with 0 by lra.
  rewrite sin_0.
  replace (0 ^ 2 + cos (latitude * PI / 180) * cos (latitude * PI / 180)
                   * 0 ^ 2) with 0 by ring.
  rewrite sqrt_0. replace (1 - 0) with 1 by ring. rewrite sqrt_1.
  unfold Py.arctan2.
  destruct (Rlt_dec 0 1); [|lra].
  replace (0 / 1) with 0 by lra. rewrite atan_0. ring.
Qed.


(** The sample query sits on the one recorded event: count factor 0.1,
    proximity factor 1. *)
Lemma sample_historical_score :
  fst (get_historical_score Samples.one_event_predictor 30 79 50)
  = 46 / 100.
Proof.
  rewrite get_historical_score_value.
  change (loaded_events Samples.one_event_predictor)
    with [ {| ev_latitude := 30; ev_longitude := 79;
              ev_district := "Chamoli" |} ].
  unfold event_distances, nearby_distances. simpl map.
  rewrite haversine_same_point. simpl. unfold Rleb.
  destruct (Rle_dec 0 50); [|lra].
  unfold Py.mean, Py.min. simpl.
  destruct (Rlt_dec 1 (1 / 10)); lra.
Qed.

(** The nearest event of the sample names a district of rank 36, which
    gives the multiplier 1.5. *)
Lemma sample_district_info :
  fst (get_district_info Samples.one_event_predictor 30 79)
  = {| district_rank := 36;
       district_name := "Chamoli";
       state_name := "Uttarakhand";
       risk_multiplier := Py.max 1 (2 - 36 / 72) |}.
Proof. reflexivity. Qed.

End BridgeSpec.

(** ** More on the model registry *)

Module ModelStoreProps.

Import ModelStore.

Lemma load_one_models (disk : gmap string File) (st : ModelRegistry * nat)
    (name file k : string) :
  models (fst (load_one disk st (name, file))) !! k
  = if decide (k = name)
    then match load_artifact disk file with
         | Some m => Some m
         | None => models (fst st) !! k
         end
    else models (fst st) !! k.
Proof.
  destruct st as [self n]. unfold load_one, load_artifact.
  destruct (disk !! file) as [f|]; simpl; [|by destruct (decide _)].
  destruct (joblib_load f) as [m|]; simpl; [|by destruct (decide _)].
  assert (H : (<[name := m]> (models self)) !! k
              = if decide (k = name) then Some m else models self !! k).
  { destruct (decide (k = name)) as [->|Hne].
    - apply lookup_insert_eq.
    - apply lookup_insert_ne. congruence. }
  destruct (disk !! (name +:+ "_metadata.pkl")) as [mf|]; simpl; [|exact H].
  destruct (pickle_load mf); simpl; exact H.
Qed.

Lemma load_loop_models_other (disk : gmap string File)
    (entries : list (string * string)) (st : ModelRegistry * nat)
    (k : string) :
  ~ In k (map fst entries) ->
  models (fst (fold_left (load_one disk) entries st)) !! k
  = models (fst st) !! k.
Proof.
  revert st. induction entries as [|[name file] entries IH]; intros st Hk.
  - reflexivity.
  - simpl in *. rewrite IH by tauto. rewrite load_one_models.
    destruct (decide (k = name)) as [->|]; [tauto|reflexivity].
Qed.

Lemma load_loop_models (disk : gmap string File)
    (entries : list (string * string)) (st : ModelRegistry * nat)
    (name file : string) :
  List.NoDup (map fst entries) ->
  In (name, file) entries ->
  models (fst (fold_left (load_one disk) entries st)) !! name
  = match load_artifact disk file with
    | Some m => Some m
    | None => models (fst st) !! name
    end.
Proof.
  revert st.
  induction entries as [|[name' file'] entries IH]; intros st Hnd Hin.
  - destruct Hin.
  - simpl in Hnd. apply List.NoDup_cons_iff in Hnd. destruct Hnd as [Hfresh Hnd].
    simpl. destruct Hin as [Heq|Hin].
    + injection Heq as -> ->.
      rewrite load_loop_models_other by exact Hfresh.
      rewrite load_one_models. destruct (decide (name = name)); congruence.
    + rewrite (IH _ Hnd Hin). rewrite load_one_models.
      destruct (decide (name = name')) as [->|]; [|reflexivity].
      exfalso. apply Hfresh. apply (in_map fst) in Hin. exact Hin.
Qed.

Lemma model_files_names_NoDup : List.NoDup (map fst model_files).
Proof.
  simpl. repeat constructor; simpl; intuition discriminate.
Qed.

(** The registry that [load_models] returns, by the final count. *)
Lemma load_models_models (dummy_model scaler : Model)
    (disk : gmap string File) (self : ModelRegistry) :
  models (load_models dummy_model scaler disk self)
  = models
      (if Nat.eqb (loaded_count disk self) 0
       then _create_dummy_models dummy_model scaler
              (fst (fold_left (load_one disk) model_files (self, O)))
       else fst (fold_left (load_one disk) model_files (self, O))).
Proof.
  unfold load_models, loaded_count.
  destruct (fold_left (load_one disk) model_files (self, O)) as [self1 n].
  simpl. destruct (Nat.eqb n 0); reflexivity.
Qed.

Lemma load_models_loaded (dummy_model scaler : Model)
    (disk : gmap string File) (self : ModelRegistry) :
  loaded (load_models dummy_model scaler disk self) = true.
Proof.
  unfold load_models.
  destruct (fold_left (load_one disk) model_files (self, O)).
  reflexivity.
Qed.

Lemma load_one_meta (disk : gmap string File) (st : ModelRegistry * nat)
    (name file k : string) :
  model_metadata (fst (load_one disk st (name, file))) !! k
  = if decide (k = name)
    then match load_artifact disk file, load_metadata disk name with
         | Some _, Some md => Some md
         | _, _ => model_metadata (fst st) !! k
         end
    else model_metadata (fst st) !! k.
Proof.
  destruct st as [self n]. unfold load_one, load_artifact, load_metadata.
  destruct (disk !! file) as [f|]; simpl; [|by destruct (decide _)].
  destruct (joblib_load f) as [m|]; simpl; [|by destruct (decide _)].
  destruct (disk !! (name +:+ "_metadata.pkl")) as [mf|]; simpl;
    [|by destruct (decide _)].
  destruct (pickle_load mf) as [md|]; simpl; [|by destruct (decide _)].
  destruct (decide (k = name)) as [->|Hne].
  - apply lookup_insert_eq.
  - apply lookup_insert_ne. congruence.
Qed.

Lemma load_loop_meta_other (disk : gmap string File)
    (entries : list (string * string)) (st : ModelRegistry * nat)
    (k : string) :
  ~ In k (map fst entries) ->
  model_metadata (fst (fold_left (load_one disk) entries st)) !! k
  = model_metadata (fst st) !! k.
Proof.
  revert st. induction entries as [|[name file] entries IH]; intros st Hk.
  - reflexivity.
  - simpl in *. rewrite IH by tauto. rewrite load_one_meta.
    destruct (decide (k = name)) as [->|]; [tauto|reflexivity].
Qed.

Lemma load_loop_meta (disk : gmap string File)
    (entries : list (string * string)) (st : ModelRegistry * nat)
    (name file : string) :
  List.NoDup (map fst entries) ->
  In (name, file) entries ->
  model_metadata (fst (fold_left (load_one disk) entries st)) !! name
  = match load_artifact disk file, load_metadata disk name with
    | Some _, Some md => Some md
    | _, _ => model_metadata (fst st) !! name
    end.
Proof.
  revert st.
  induction entries as [|[name' file'] entries IH]; intros st Hnd Hin.
  - destruct Hin.
  - simpl in Hnd. apply List.NoDup_cons_iff in Hnd.
    destruct Hnd as [Hfresh Hnd].
    simpl. destruct Hin as [Heq|Hin].
    + injection Heq as -> ->.
      rewrite load_loop_meta_other by exact Hfresh.
      rewrite load_one_meta. destruct (decide (name = name)); congruence.
    + rewrite (IH _ Hnd Hin). rewrite load_one_meta.
      destruct (decide (name = name')) as [->|]; [|reflexivity].
      exfalso. apply Hfresh. apply (in_map fst) in Hin. exact Hin.
Qed.

(** An artifact is counted when it loads and its metadata file is
    missing or readable. *)
Lemma load_one_counted (disk : gmap string File) (st : ModelRegistry * nat)
    (name file : string) (m : Model) :
  load_artifact disk file = Some m ->
  disk !! (name +:+ "_metadata.pkl") = None
  \/ is_Some (load_metadata disk name) ->
  snd (load_one disk st (name, file)) = S (snd st).
Proof.
  destruct st as [self n]. unfold load_one, load_artifact, load_metadata.
  intros Ha Hm.
  destruct (disk !! file) as [f|]; [|discriminate].
  rewrite Ha.
  destruct (disk !! (name +:+ "_metadata.pkl")) as [mf|]; [|reflexivity].
  destruct Hm as [Hm|[md Hm]]; [discriminate|].
  rewrite Hm. reflexivity.
Qed.

Lemma load_loop_counted (disk : gmap string File)
    (entries : list (string * string)) (st : ModelRegistry * nat)
    (name file : string) (m : Model) :
  In (name, file) entries ->
  load_artifact disk file = Some m ->
  disk !! (name +:+ "_metadata.pkl") = None
  \/ is_Some (load_metadata disk name) ->
  (snd st < snd (fold_left (load_one disk) entries st))%nat.
Proof.
  revert st. induction entries as [|e entries IH]; intros st Hin Ha Hm.
  - destruct Hin.
  - simpl. destruct Hin as [->|Hin].
    + pose proof (load_one_counted disk st name file m Ha Hm) as H1.
      pose proof (ModelStoreSpec.load_loop_count disk entries
                    (load_one disk st (name, file))) as H2.
      lia.
    + pose proof (ModelStoreSpec.load_one_count disk st e) as H1.
      pose proof (IH (load_one disk st e) Hin Ha Hm) as H2.
      lia.
Qed.

Lemma load_models_metadata (dummy_model scaler : Model)
    (disk : gmap string File) (self : ModelRegistry) :
  model_metadata (load_models dummy_model scaler disk self)
  = model_metadata (fst (fold_left (load_one disk) model_files (self, O))).
Proof.
  unfold load_models.
  destruct (fold_left (load_one disk) model_files (self, O)) as [self1 n].
  simpl. destruct (Nat.eqb n 0); reflexivity.
Qed.

Lemma metadata_name_ne_model_name (name : string) :
  name +:+ "_metadata.pkl" <> name +:+ "_model.pkl".
Proof.
  induction name as [|c name IH]; simpl.
  - discriminate.
  - intros H. injection H as H. exact (IH H).
Qed.

(** [load_models], slot by slot: when at least one artifact is counted,
    a slot whose file loads holds the loaded artifact and every other
    slot keeps what the registry held before. *)
Theorem load_models_slot (dummy_model scaler : Model)
    (disk : gmap string File) (self : ModelRegistry) (name file : string) :
  In (name, file) model_files ->
  loaded_count disk self <> O ->
  get_model (load_models dummy_model scaler disk self) name
  = match load_artifact disk file with
    | Some m => Some m
    | None => get_model self name
    end.
Proof.
  intros Hin Hcount. unfold get_model.
  rewrite load_models_models.
  destruct (Nat.eqb_spec (loaded_count disk self) 0); [contradiction|].
  apply (load_loop_models disk model_files (self, O) name file
           model_files_names_NoDup Hin).
Qed.

Lemma load_models_slot_witness :
  get_model
    (load_models Samples.half_model Samples.half_model
       Samples.ensemble_disk init) "xgboost"
  = None.
Proof.
  refine (load_models_slot Samples.half_model Samples.half_model
            Samples.ensemble_disk init "xgboost" "xgboost_model.pkl" _ _).
  - simpl. auto.
  - discriminate.
Defined.

(** Readiness after [load_models]: the registry is ready exactly when
    nothing was counted (the stand-ins are registered), or the ensemble
    artifact loads, or an ensemble was registered before the call.
    Member artifacts alone do not make it ready. *)
Theorem load_models_ready_iff (dummy_model scaler : Model)
    (disk : gmap string File) (self : ModelRegistry) :
  is_ready (load_models dummy_model scaler disk self) = true <->
  loaded_count disk self = O
  \/ is_Some (load_artifact disk "ensemble_model.pkl")
  \/ is_Some (get_model self "ensemble").
Proof.
  rewrite ModelStoreSpec.is_ready_spec, load_models_loaded.
  rewrite load_models_models.
  destruct (Nat.eqb_spec (loaded_count disk self) 0) as [Hz|Hnz].
  - split; [auto|]. intros _. split; [reflexivity|].
    unfold _create_dummy_models. cbn [models].
    rewrite !lookup_insert_ne by discriminate.
    rewrite lookup_insert_eq. eauto.
  - rewrite (load_loop_models disk model_files (self, O)
               "ensemble" "ensemble_model.pkl" model_files_names_NoDup)
      by (simpl; auto 10).
    unfold get_model. simpl.
    destruct (load_artifact disk "ensemble_model.pkl") as [m|].
    + split; eauto.
    + split.
      * intros [_ H]. auto.
      * intros [H|[[x H]|H]]; [contradiction|discriminate|auto].
Qed.

Lemma save_model_disk (name : string) (m : Model)
    (md : option (gmap string MetaValue)) (self : ModelRegistry)
    (disk : gmap string File) :
  load_artifact (snd (save_model name m md (self, disk)))
    (name +:+ "_model.pkl") = Some m /\
  (forall file,
     file <> name +:+ "_model.pkl" ->
     file <> name +:+ "_metadata.pkl" ->
     snd (save_model name m md (self, disk)) !! file = disk !! file) /\
  (forall x, metadata_given md = Some x ->
     load_metadata (snd (save_model name m md (self, disk))) name = Some x).
Proof.
  unfold save_model, load_artifact, load_metadata.
  pose proof (metadata_name_ne_model_name name) as Hne.
  destruct (metadata_given md) as [x|]; simpl.
  - split; [|split].
    + rewrite lookup_insert_ne by exact Hne.
      rewrite lookup_insert_eq. reflexivity.
    + intros file H1 H2.
      rewrite !lookup_insert_ne by congruence. reflexivity.
    + intros y [= <-]. rewrite lookup_insert_eq. reflexivity.
  - split; [|split].
    + rewrite lookup_insert_eq. reflexivity.
    + intros file H1 H2. rewrite lookup_insert_ne by congruence. reflexivity.
    + discriminate.
Qed.

(** A model saved with metadata under a slot that [load_models] reads
    from [<name>_model.pkl] survives a restart: a fresh registry that
    loads the directory holds the saved model and its metadata. *)
Theorem save_model_survives_restart (dummy_model scaler : Model)
    (disk : gmap string File) (self : ModelRegistry)
    (name : string) (m : Model) (md : gmap string MetaValue) :
  In (name, name +:+ "_model.pkl") model_files ->
  md <> ∅ ->
  let disk1 := snd (save_model name m (Some md) (self, disk)) in
  let r := load_models dummy_model scaler disk1 init in
  get_model r name = Some m /\
  get_metadata r name = md /\
  loaded_count disk1 init <> O.
Proof.
  intros Hin Hmd. cbv zeta.
  assert (Hg : metadata_given (Some md) = Some md).
  { simpl. destruct (decide (md = ∅)); [contradiction|reflexivity]. }
  destruct (save_model_disk name m (Some md) self disk) as (Ha & _ & Hm).
  specialize (Hm md Hg).
  set (disk1 := snd (save_model name m (Some md) (self, disk))) in *.
  assert (Hc : loaded_count disk1 init <> O).
  { unfold loaded_count.
    pose proof (load_loop_counted disk1 model_files (init, O) name
                  (name +:+ "_model.pkl") m Hin Ha) as H.
    simpl in H. rewrite Hm in H.
    assert (0 < snd (fold_left (load_one disk1) model_files (init, O)))%nat
      by (apply H; right; eauto).
    lia. }
  split; [|split; [|exact Hc]].
  - unfold get_model. rewrite load_models_models.
    destruct (Nat.eqb_spec (loaded_count disk1 init) 0); [contradiction|].
    rewrite (load_loop_models disk1 model_files (init, O) name _
               model_files_names_NoDup Hin).
    rewrite Ha. reflexivity.
  - unfold get_metadata. rewrite load_models_metadata.
    rewrite (load_loop_meta disk1 model_files (init, O) name _
               model_files_names_NoDup Hin).
    rewrite Ha, Hm. reflexivity.
Qed.

Lemma save_model_survives_restart_witness :
  get_model
    (load_models Samples.half_model Samples.half_model
       (snd (save_model "ensemble" Samples.half_model
               (Some Samples.sample_metadata) (init, ∅))) init)
    "ensemble"
  = Some Samples.half_model.
Proof.
  refine (proj1 (save_model_survives_restart Samples.half_model
                   Samples.half_model ∅ init "ensemble" Samples.half_model
                   Samples.sample_metadata _ _)).
  - simpl. auto 10.
  - intros H.
    assert (Hl : Samples.sample_metadata !! "version" = Some (MStr "v1"))
      by reflexivity.
    rewrite H in Hl. discriminate Hl.
Defined.

(** The preprocessor is saved as [preprocessor_model.pkl] and loaded from
    [preprocessor.pkl]: when the directory has no [preprocessor.pkl], a
    saved preprocessor is not found by [load_models]; the slot is empty,
    or holds the stand-in scaler when nothing at all was counted. *)
Theorem saved_preprocessor_not_loaded (dummy_model scaler : Model)
    (disk : gmap string File) (self : ModelRegistry)
    (m : Model) (md : option (gmap string MetaValue)) :
  disk !! "preprocessor.pkl" = None ->
  let disk1 := snd (save_model "preprocessor" m md (self, disk)) in
  get_model (load_models dummy_model scaler disk1 init) "preprocessor"
  = if Nat.eqb (loaded_count disk1 init) 0 then Some scaler else None.
Proof.
  intros Hnone. cbv zeta.
  destruct (save_model_disk "preprocessor" m md self disk) as (_ & Hd & _).
  set (disk1 := snd (save_model "preprocessor" m md (self, disk))) in *.
  unfold get_model. rewrite load_models_models.
  destruct (Nat.eqb (loaded_count disk1 init) 0).
  - unfold _create_dummy_models. cbn [models]. apply lookup_insert_eq.
  - rewrite (load_loop_models disk1 model_files (init, O)
               "preprocessor" "preprocessor.pkl" model_files_names_NoDup)
      by (simpl; auto 10).
    unfold load_artifact. rewrite Hd by discriminate. rewrite Hnone.
    reflexivity.
Qed.

Lemma saved_preprocessor_not_loaded_witness :
  get_model
    (load_models Samples.half_model Samples.half_model
       (snd (save_model "preprocessor" Samples.half_model None
               (init, Samples.ensemble_disk))) init)
    "preprocessor"
  = None.
Proof.
  refine (saved_preprocessor_not_loaded Samples.half_model
            Samples.half_model Samples.ensemble_disk init
            Samples.half_model None _).
  reflexivity.
Defined.

(** Saving and reloading: whatever the registry holds at the time,
    [reload_model] on the directory that [save_model] wrote returns
    normally with the saved model in the slot and the other slots
    untouched. *)
Theorem save_then_reload (name : string) (m : Model)
    (md : option (gmap string MetaValue)) (self r : ModelRegistry)
    (disk : gmap string File) :
  let disk1 := snd (save_model name m md (self, disk)) in
  let res := reload_model disk1 name r in
  snd res = true /\
  get_model (fst res) name = Some m /\
  (forall k, k <> name -> get_model (fst res) k = get_model r k) /\
  model_metadata (fst res) = model_metadata r.
Proof.
  cbv zeta.
  destruct (save_model_disk name m md self disk) as (Ha & _ & _).
  unfold reload_model, load_artifact in *.
  destruct (snd (save_model name m md (self, disk)) !! (name +:+ "_model.pkl"))
    as [f|]; [|discriminate].
  rewrite Ha. unfold get_model. simpl.
  split; [reflexivity|]. split; [apply lookup_insert_eq|].
  split; [|reflexivity].
  intros k Hk.
  rewrite lookup_insert_ne, lookup_delete_ne by congruence. reflexivity.
Qed.

(** Reloading a slot whose artifact does not load: the slot is emptied
    first and stays empty, the metadata stays, and the call returns
    normally exactly when the file is missing (a file that is there and
    does not load makes it raise). *)
Theorem reload_model_without_artifact (disk : gmap string File)
    (name : string) (self : ModelRegistry) :
  load_artifact disk (name +:+ "_model.pkl") = None ->
  let res := reload_model disk name self in
  get_model (fst res) name = None /\
  (forall k, k <> name -> get_model (fst res) k = get_model self k) /\
  model_metadata (fst res) = model_metadata self /\
  (snd res = true <-> disk !! (name +:+ "_model.pkl") = None) /\
  (name = "ensemble"%string -> is_ready (fst res) = false).
Proof.
  intros Ha. cbv zeta. unfold reload_model, load_artifact in *.
  assert (Hdrop : get_model (unload_model name self) name = None)
    by (unfold get_model; simpl; apply lookup_delete_eq).
  assert (Hkeep : forall k, k <> name ->
            get_model (unload_model name self) k = get_model self k).
  { intros k Hk. unfold get_model. simpl.
    apply lookup_delete_ne. congruence. }
  assert (Hready : name = "ensemble"%string ->
            is_ready (unload_model name self) = false).
  { intros ->. unfold is_ready. unfold get_model in Hdrop.
    rewrite Hdrop. rewrite bool_decide_eq_false_2.
    - apply andb_false_r.
    - intros [x Hx]. discriminate Hx. }
  destruct (disk !! (name +:+ "_model.pkl")) as [f|].
  - rewrite Ha. simpl fst. simpl snd.
    repeat split; auto; discriminate.
  - simpl fst. simpl snd. repeat split; auto.
Qed.

Lemma reload_model_without_artifact_witness :
  is_ready (fst (reload_model ∅ "ensemble" Samples.ensemble_only)) = false.
Proof.
  refine (proj2 (proj2 (proj2 (proj2
    (reload_model_without_artifact ∅ "ensemble" Samples.ensemble_only _))))
    eq_refl).
  reflexivity.
Defined.

(** [unload_model]: the slot is empty afterwards, the other slots and
    all metadata stay, unloading twice is unloading once, and unloading
    a slot that is not registered changes nothing. *)
Theorem unload_model_spec (name : string) (self : ModelRegistry) :
  get_model (unload_model name self) name = None /\
  (forall k, k <> name ->
     get_model (unload_model name self) k = get_model self k) /\
  (forall k, get_metadata (unload_model name self) k = get_metadata self k) /\
  unload_model name (unload_model name self) = unload_model name self /\
  (get_model self name = None -> unload_model name self = self).
Proof.
  unfold get_model, get_metadata, unload_model. simpl.
  split; [apply lookup_delete_eq|].
  split; [intros k Hk; apply lookup_delete_ne; congruence|].
  split; [reflexivity|].
  split.
  - f_equal. apply delete_id. apply lookup_delete_eq.
  - intros H. destruct self as [ms mm l]. simpl in *.
    f_equal. apply delete_id. exact H.
Qed.

End ModelStoreProps.

(** ** More on the prediction endpoints *)

Module EndpointsProps.

Import Config ModelStore Endpoints.

Section Handlers.

Variable settings : Settings.
Variable str : Exception -> string.
Variable utcnow : Z.

Lemma confidence_of_bounds (preds : list R) : 0 <= confidence_of preds <= 1.
Proof. unfold confidence_of. apply PyFacts.clamp_bounds. Qed.

(** The [try] block of [predict_single], outcome by outcome. *)
Lemma predict_single_body_cases (request : PredictionRequest)
    (model_registry : ModelRegistry) :
  let features := model_dump_values (req_features request) in
  let body := predict_single_body settings utcnow request model_registry in
  match get_model model_registry "ensemble" with
  | None => body = Raise (HTTPException 503 "Ensemble model not available")
  | Some ensemble_model =>
    match predict_proba ensemble_model features with
    | None => body = Raise ModelError
    | Some p =>
      match collect_predictions model_registry features member_names with
      | Raise e => body = Raise e
      | Return preds =>
        (0 <= p <= 1 /\
         body = Return
           {| location_name := req_location_name request;
              latitude := req_latitude request;
              longitude := req_longitude request;
              probability := p;
              risk_level := classify settings p;
              confidence := confidence_of preds;
              feature_importance :=
                xgb_feature_importance settings model_registry;
              model_version := MODEL_VERSION settings;
              timestamp := utcnow;
              recommended_actions :=
                set_recommended_actions (classify settings p) |}) \/
        (~ 0 <= p <= 1 /\ body = Raise ValidationError)
      end
    end
  end.
Proof.
  cbv zeta. unfold predict_single_body.
  destruct (get_model model_registry "ensemble") as [ens|]; [|reflexivity].
  unfold call_predict_proba.
  destruct (predict_proba ens _) as [p|]; [|reflexivity].
  cbv beta iota delta [bind].
  destruct (collect_predictions _ _ member_names) as [preds|e];
    [|reflexivity].
  unfold make_response.
  pose proof (confidence_of_bounds preds) as Hb.
  destruct (Rle_dec 0 p); [|right; split; [lra|reflexivity]].
  destruct (Rle_dec p 1); [|right; split; [lra|reflexivity]].
  destruct (Rle_dec 0 (confidence_of preds)); [|lra].
  destruct (Rle_dec (confidence_of preds) 1); [|lra].
  left. split; [lra|reflexivity].
Qed.



(** What every returned prediction satisfies: probability and confidence
    lie in [0, 1], the risk level is the tier of the probability, the
    recommended actions are the non-empty list of that tier, and the
    location is the one of the request. *)
Theorem predict_single_response_invariants (request : PredictionRequest)
    (model_registry : ModelRegistry) (response : PredictionResponse) :
  predict_single settings str utcnow request model_registry
  = Return response ->
  0 <= probability response <= 1 /\
  0 <= confidence response <= 1 /\
  risk_level response = classify settings (probability response) /\
  recommended_actions response
  = set_recommended_actions (risk_level response) /\
  recommended_actions response <> [] /\
  location_name response = req_location_name request /\
  latitude response = req_latitude request /\
  longitude response = req_longitude request.
Proof.
  intros H.
  pose proof (predict_single_body_cases request model_registry) as Hb.
  cbv zeta in Hb. unfold predict_single in H.
  destruct (get_model model_registry "ensemble") as [ens|];
    [|rewrite Hb in H; discriminate].
  destruct (predict_proba ens _) as [p|]; [|rewrite Hb in H; discriminate].
  destruct (collect_predictions _ _ member_names) as [preds|e];
    [|rewrite Hb in H; discriminate].
  destruct Hb as [[Hr Hb]|[_ Hb]]; rewrite Hb in H; [|discriminate].
  injection H as <-. simpl.
  pose proof (confidence_of_bounds preds).
  repeat split; try lra.
  destruct (classify settings p); discriminate.
Qed.

Lemma predict_each_returns (locations : list PredictionRequest)
    (model_registry : ModelRegistry) (rs : list PredictionResponse) :
  predict_each settings str utcnow locations model_registry = Return rs <->
  Forall2
    (fun request response =>
       predict_single settings str utcnow request model_registry
       = Return response) locations rs.
Proof.
  revert rs. induction locations as [|req locations IH]; intros rs; simpl.
  - split.
    + intros [= <-]. constructor.
    + intros H. inversion H. reflexivity.
  - destruct (predict_single settings str utcnow req model_registry)
      as [r|e] eqn:Hs; simpl.
    + destruct (predict_each settings str utcnow locations model_registry)
        as [rs'|e] eqn:He; simpl.
      * split.
        -- intros [= <-]. constructor; [exact Hs|]. apply IH. reflexivity.
        -- intros H. inversion H as [|? ? ? ? H1 H2]; subst.
           rewrite Hs in H1. injection H1 as <-.
           apply IH in H2. injection H2 as <-.
           reflexivity.
      * split; [discriminate|].
        intros H. inversion H as [|? ? ? ? H1 H2]; subst.
        apply IH in H2. discriminate.
    + split; [discriminate|].
      intros H. inversion H as [|? ? ? ? H1 H2]; subst.
      rewrite Hs in H1. discriminate.
Qed.

Lemma predict_each_raises (locations : list PredictionRequest)
    (model_registry : ModelRegistry) (e : Exception) :
  predict_each settings str utcnow locations model_registry = Raise e ->
  exists done request rest,
    locations = done ++ request :: rest /\
    Forall
      (fun r =>
         exists response,
           predict_single settings str utcnow r model_registry
           = Return response) done /\
    predict_single settings str utcnow request model_registry = Raise e.
Proof.
  induction locations as [|req locations IH]; simpl; [discriminate|].
  destruct (predict_single settings str utcnow req model_registry)
    as [r|e'] eqn:Hs; simpl.
  - destruct (predict_each settings str utcnow locations model_registry)
      as [rs'|e'] eqn:He; simpl; [discriminate|].
    intros [= <-].
    destruct (IH eq_refl) as (done & request & rest & -> & Hd & Hr).
    exists (req :: done), request, rest.
    split; [reflexivity|]. split; [|exact Hr].
    constructor; [eauto|exact Hd].
  - intros [= <-]. exists [], req, locations.
    split; [reflexivity|]. split; [constructor|exact Hs].
Qed.

Lemma summary_counts (predictions : list PredictionResponse) :
  let s := calculate_summary predictions in
  (very_low s + low s + moderate s + high s + severe s
   = length predictions)%nat.
Proof.
  cbv zeta. unfold calculate_summary. simpl.
  induction predictions as [|p predictions IH]; [reflexivity|].
  simpl. destruct (risk_level p); simpl; lia.
Qed.

(** A batch that returns: it was within the size bound, its predictions
    are the single predictions of its locations in the same order, and
    the five tier counts of the summary add up to the number of
    locations. *)
Theorem predict_batch_returns (locations : list PredictionRequest)
    (model_registry : ModelRegistry) (response : BatchPredictionResponse) :
  predict_batch settings str utcnow locations model_registry
  = Return response ->
  (length locations <= MAX_BATCH_SIZE settings)%nat /\
  Forall2
    (fun request r =>
       predict_single settings str utcnow request model_registry = Return r)
    locations (predictions response) /\
  total_locations response = length locations /\
  total (summary response) = length locations /\
  (very_low (summary response) + low (summary response)
   + moderate (summary response) + high (summary response)
   + severe (summary response) = length locations)%nat.
Proof.
  unfold predict_batch.
  destruct (Nat.ltb_spec (MAX_BATCH_SIZE settings) (length locations))
    as [Hbig|Hok]; [discriminate|].
  destruct (predict_each settings str utcnow locations model_registry)
    as [rs|e] eqn:He; simpl; [|destruct e; discriminate].
  intros [= <-]. simpl.
  apply predict_each_returns in He.
  pose proof (Forall2_length _ _ _ He) as Hlen.
  pose proof (summary_counts rs) as Hsum. cbv zeta in Hsum.
  unfold calculate_summary in Hsum. simpl in Hsum.
  repeat split; auto; lia.
Qed.

(** A batch that fails: either it exceeded the size bound and gets the
    400 before any prediction ran, or the first location whose single
    prediction fails supplies the exception, the 500 of [predict_single]
    passed on unchanged. *)
Theorem predict_batch_raises (locations : list PredictionRequest)
    (model_registry : ModelRegistry) (e : Exception) :
  predict_batch settings str utcnow locations model_registry = Raise e ->
  ((MAX_BATCH_SIZE settings < length locations)%nat /\
   e = HTTPException 400
         ("Batch size exceeds maximum of "
          +:+ pretty (MAX_BATCH_SIZE settings))) \/
  ((length locations <= MAX_BATCH_SIZE settings)%nat /\
   exists done request rest cause,
     locations = done ++ request :: rest /\
     Forall
       (fun r =>
          exists response,
            predict_single settings str utcnow r model_registry
            = Return response) done /\
     predict_single_body settings utcnow request model_registry
     = Raise cause /\
     e = HTTPException 500 ("Prediction failed: " +:+ str cause)).
Proof.
  unfold predict_batch.
  destruct (Nat.ltb_spec (MAX_BATCH_SIZE settings) (length locations))
    as [Hbig|Hok].
  - intros [= <-]. left. auto.
  - destruct (predict_each settings str utcnow locations model_registry)
      as [rs|e'] eqn:He; simpl; [discriminate|].
    destruct (predict_each_raises _ _ _ He)
      as (done & request & rest & Hl & Hd & Hr).
    unfold predict_single in Hr.
    destruct (predict_single_body settings utcnow request model_registry)
      as [r|cause] eqn:Hb; [discriminate|].
    injection Hr as <-.
    intros [= <-]. right. split; [exact Hok|].
    exists done, request, rest, cause. auto.
Qed.

(** The request validator admits a batch exactly when it has between 1
    and 100 locations; with a configured bound of 100 or more, the size
    check of the handler never fires on an admitted batch, so the only
    failure left is a 500. *)
Theorem validated_batch_never_400 (v : list PredictionRequest)
    (model_registry : ModelRegistry) :
  (validate_batch_size v = Return v <->
   (1 <= length v <= 100)%nat) /\
  (forall v', validate_batch_size v = Return v' -> v' = v) /\
  ((100 <= MAX_BATCH_SIZE settings)%nat ->
   validate_batch_size v = Return v ->
   forall e,
     predict_batch settings str utcnow v model_registry = Raise e ->
     exists detail, e = HTTPException 500 detail).
Proof.
  assert (Hv : validate_batch_size v = Return v <->
               (1 <= length v <= 100)%nat).
  { unfold validate_batch_size.
    destruct (Nat.ltb_spec 100 (length v)).
    - split; [discriminate|lia].
    - destruct (Nat.eqb_spec (length v) 0).
      + split; [discriminate|lia].
      + split; [lia|reflexivity]. }
  split; [exact Hv|]. split.
  - intros v'. unfold validate_batch_size.
    destruct (Nat.ltb 100 (length v)); [discriminate|].
    destruct (Nat.eqb (length v) 0); [discriminate|].
    intros [= <-]. reflexivity.
  - intros Hmax Hval e. apply Hv in Hval.
    unfold predict_batch.
    destruct (Nat.ltb_spec (MAX_BATCH_SIZE settings) (length v)); [lia|].
    destruct (predict_each settings str utcnow v model_registry)
      as [rs|e'] eqn:He; simpl; [discriminate|].
    destruct (predict_each_raises _ _ _ He)
      as (done & request & rest & _ & _ & Hr).
    unfold predict_single in Hr.
    destruct (predict_single_body settings utcnow request model_registry);
      [discriminate|].
    injection Hr as <-. intros [= <-]. eauto.
Qed.

(** *** Feature importance *)

Lemma insert_desc_perm (x : string * R) (l : list (string * R)) :
  Permutation (insert_desc x l) (x :: l).
Proof.
  induction l as [|y l IH]; simpl; [reflexivity|].
  destruct (Rlt_dec (snd x) (snd y)); [|reflexivity].
  rewrite IH. apply perm_swap.
Qed.

Lemma sorted_desc_perm (l : list (string * R)) :
  Permutation (sorted_desc l) l.
Proof.
  induction l as [|x l IH]; simpl; [reflexivity|].
  rewrite insert_desc_perm. constructor. exact IH.
Qed.

Lemma insert_desc_sorted (x : string * R) (l : list (string * R)) :
  StronglySorted (fun a b => snd b <= snd a) l ->
  StronglySorted (fun a b => snd b <= snd a) (insert_desc x l).
Proof.
  induction l as [|y l IH]; intros Hs; simpl.
  - constructor; constructor.
  - apply StronglySorted_inv in Hs. destruct Hs as [Hs Hy].
    destruct (Rlt_dec (snd x) (snd y)) as [Hlt|Hge].
    + constructor; [apply IH; exact Hs|].
      rewrite insert_desc_perm. constructor; [lra|exact Hy].
    + constructor; [constructor; assumption|].
      constructor; [lra|].
      eapply List.Forall_impl; [|exact Hy]. simpl. intros z Hz. lra.
Qed.

Lemma sorted_desc_sorted (l : list (string * R)) :
  StronglySorted (fun a b => snd b <= snd a) (sorted_desc l).
Proof.
  induction l as [|x l IH]; simpl; [constructor|].
  apply insert_desc_sorted. exact IH.
Qed.

Lemma dict_set_keys_in (k : string) (v : R) (d : list (string * R)) :
  In k (map fst d) -> map fst (dict_set k v d) = map fst d.
Proof.
  induction d as [|[k' v'] d IH]; simpl; [tauto|].
  intros Hin. destruct (decide (k' = k)) as [->|Hne]; simpl; [reflexivity|].
  rewrite IH by tauto. reflexivity.
Qed.

Lemma dict_set_keys_fresh (k : string) (v : R) (d : list (string * R)) :
  ~ In k (map fst d) -> dict_set k v d = d ++ [(k, v)].
Proof.
  induction d as [|[k' v'] d IH]; simpl; [reflexivity|].
  intros Hk. destruct (decide (k' = k)); [tauto|].
  rewrite IH by tauto. reflexivity.
Qed.

Lemma dict_of_items_keys (items acc : list (string * R)) :
  List.NoDup (map fst acc) ->
  List.NoDup
    (map fst (fold_left (fun d kv => dict_set (fst kv) (snd kv) d) items acc))
  /\
  (forall k,
     In k (map fst
             (fold_left (fun d kv => dict_set (fst kv) (snd kv) d) items acc))
     -> In k (map fst acc) \/ In k (map fst items)).
Proof.
  revert acc. induction items as [|[k v] items IH]; intros acc Hnd; simpl.
  - auto.
  - destruct (in_dec string_dec k (map fst acc)) as [Hin|Hout].
    + pose proof (dict_set_keys_in k v acc Hin) as Hkeys.
      assert (Hnd' : List.NoDup (map fst (dict_set k v acc)))
        by (rewrite Hkeys; exact Hnd).
      destruct (IH _ Hnd') as [H1 H2]. split; [exact H1|].
      intros k' Hk'. apply H2 in Hk'. rewrite Hkeys in Hk'. tauto.
    + pose proof (dict_set_keys_fresh k v acc Hout) as Hset.
      assert (Hnd' : List.NoDup (map fst (dict_set k v acc))).
      { rewrite Hset, map_app. simpl.
        eapply Permutation_NoDup; [apply Permutation_cons_append|].
        constructor; assumption. }
      destruct (IH _ Hnd') as [H1 H2]. split; [exact H1|].
      intros k' Hk'. apply H2 in Hk'. rewrite Hset, map_app in Hk'.
      destruct Hk' as [Hk'|Hk']; [|tauto].
      apply in_app_or in Hk'. simpl in Hk'. tauto.
Qed.

Lemma dict_of_items_fresh (items acc : list (string * R)) :
  List.NoDup (map fst (acc ++ items)) ->
  fold_left (fun d kv => dict_set (fst kv) (snd kv) d) items acc
  = acc ++ items.
Proof.
  revert acc. induction items as [|[k v] items IH]; intros acc Hnd; simpl.
  - rewrite app_nil_r. reflexivity.
  - assert (Hset : dict_set k v acc = acc ++ [(k, v)]).
    { apply dict_set_keys_fresh.
      rewrite map_app in Hnd. simpl in Hnd.
      apply NoDup_remove_2 in Hnd. intros H. apply Hnd.
      apply in_or_app. left. exact H. }
    rewrite Hset, IH; rewrite <- app_assoc; [reflexivity|exact Hnd].
Qed.

Lemma combine_keys_NoDup (names : list string) (values : list R) :
  List.NoDup names -> List.NoDup (map fst (combine names values)).
Proof.
  revert values. induction names as [|n names IH]; intros values Hnd.
  - constructor.
  - destruct values as [|v values]; [constructor|]. simpl.
    apply List.NoDup_cons_iff in Hnd. destruct Hnd as [Hn Hnd].
    constructor; [|apply IH; exact Hnd].
    intros Hin. apply Hn. apply in_map_iff in Hin.
    destruct Hin as ([n' v'] & <- & Hin). apply in_combine_l in Hin.
    exact Hin.
Qed.

(** The feature importance of a response: sorted by descending value,
    one entry per key, every key a configured feature column; when the
    configured columns are distinct it is a rearrangement of the columns
    zipped with the importances of the xgboost model, and it is empty
    when that model is missing or exposes no importances. *)
Theorem feature_importance_sorted (model_registry : ModelRegistry) :
  let fi := xgb_feature_importance settings model_registry in
  StronglySorted (fun a b => snd b <= snd a) fi /\
  List.NoDup (map fst fi) /\
  (forall k, In k (map fst fi) -> In k (FEATURE_COLUMNS settings)) /\
  (forall xgb importances,
     List.NoDup (FEATURE_COLUMNS settings) ->
     get_model model_registry "xgboost" = Some xgb ->
     feature_importances_ xgb = Some importances ->
     Permutation fi (combine (FEATURE_COLUMNS settings) importances)) /\
  (get_model model_registry "xgboost" = None -> fi = []) /\
  (forall xgb,
     get_model model_registry "xgboost" = Some xgb ->
     feature_importances_ xgb = None -> fi = []).
Proof.
  cbv zeta. unfold xgb_feature_importance.
  destruct (get_model model_registry "xgboost") as [xgb|].
  - destruct (feature_importances_ xgb) as [imps|] eqn:Hfi.
    + pose proof (dict_of_items_keys
                    (combine (FEATURE_COLUMNS settings) imps) []
                    (List.NoDup_nil _)) as [Hnd Hkeys].
      fold (dict_of_items (combine (FEATURE_COLUMNS settings) imps))
        in Hnd, Hkeys.
      split; [apply sorted_desc_sorted|].
      split.
      { eapply Permutation_NoDup; [|exact Hnd].
        apply Permutation_map. symmetry. apply sorted_desc_perm. }
      split.
      { intros k Hk.
        apply (Permutation_in _
                 (Permutation_map fst (sorted_desc_perm _))) in Hk.
        apply Hkeys in Hk. destruct Hk as [[]|Hk].
        apply in_map_iff in Hk. destruct Hk as ([n v] & <- & Hin).
        apply in_combine_l in Hin. exact Hin. }
      split.
      { intros xgb' imps' Hnames [= <-] Hfi'.
        rewrite Hfi in Hfi'. injection Hfi' as <-.
        rewrite sorted_desc_perm. unfold dict_of_items.
        rewrite dict_of_items_fresh; [reflexivity|].
        simpl. apply combine_keys_NoDup. exact Hnames. }
      split; [discriminate|]. intros xgb' [= <-] Hfi'.
      rewrite Hfi in Hfi'. discriminate.
    + split; [constructor|]. split; [constructor|].
      split; [intros k []|].
      split; [intros xgb' imps' _ [= <-] Hfi';
              rewrite Hfi in Hfi'; discriminate|].
      split; reflexivity.
  - split; [constructor|]. split; [constructor|].
    split; [intros k []|].
    split; [discriminate|]. split; reflexivity.
Qed.

(** *** Predictions on the stand-in models *)





(** *** The risk grid *)

Variable simulate : R -> R -> string + list R.

Lemma for_each_done {A B} (f : A -> outcome B) (l : list A) (rs : list B) :
  for_each f l = Done rs <-> Forall2 (fun x r => f x = Done r) l rs.
Proof.
  revert rs. induction l as [|x l IH]; intros rs; simpl.
  - split.
    + intros [= <-]. constructor.
    + intros H. inversion H. reflexivity.
  - destruct (f x) as [y| |] eqn:Hx.
    + destruct (for_each f l) as [ys| |] eqn:Hl.
      * split.
        -- intros [= <-]. constructor; [exact Hx|]. apply IH. reflexivity.
        -- intros H. inversion H as [|? ? ? ? H1 H2]; subst.
           rewrite Hx in H1. injection H1 as <-.
           apply IH in H2. injection H2 as <-. reflexivity.
      * split; [discriminate|].
        intros H. inversion H as [|? ? ? ? H1 H2]; subst.
        apply IH in H2. discriminate.
      * split; [discriminate|].
        intros H. inversion H as [|? ? ? ? H1 H2]; subst.
        apply IH in H2. discriminate.
    + split; [discriminate|].
      intros H. inversion H as [|? ? ? ? H1 H2]; subst.
      rewrite Hx in H1. discriminate.
    + split; [discriminate|].
      intros H. inversion H as [|? ? ? ? H1 H2]; subst.
      rewrite Hx in H1. discriminate.
Qed.

Lemma for_each_not_http {A B} (f : A -> outcome B) (l : list A) :
  (forall x status_code detail, f x <> Http status_code detail) ->
  forall status_code detail, for_each f l <> Http status_code detail.
Proof.
  intros Hf. induction l as [|x l IH]; intros sc d; simpl; [discriminate|].
  destruct (f x) as [y|sc' d'|msg] eqn:Hx.
  - destruct (for_each f l) as [ys|sc' d'|msg] eqn:Hl; try discriminate.
    exfalso. exact (IH sc' d' eq_refl).
  - exfalso. exact (Hf x sc' d' Hx).
  - discriminate.
Qed.


Lemma linspace_some (start stop : R) (num : Z) (points : list R) :
  linspace start stop num = Some points ->
  (0 <= num)%Z /\
  length points = Z.to_nat num /\
  ((1 <= num)%Z -> head points = Some start) /\
  ((2 <= num)%Z -> last points = Some stop).
Proof.
  unfold linspace. destruct (Z.ltb_spec num 0); [discriminate|].
  intros [= <-]. split; [lia|].
  destruct (Z.to_nat num) as [|[|m]] eqn:Hn.
  - repeat split; try reflexivity; lia.
  - repeat split; try reflexivity; lia.
  - split; [|split].
    + rewrite length_app, length_map, length_seq. simpl. lia.
    + intros _. simpl. f_equal. lra.
    + intros _. apply last_snoc.
Qed.

Lemma risk_cell_done (model_registry : ModelRegistry) (lat lon : R)
    (cell : Cell) :
  risk_cell str simulate model_registry lat lon = Done cell ->
  cell_latitude cell = lat /\
  cell_longitude cell = lon /\
  (get_model model_registry "ensemble" = None ->
   cell_probability cell = 5 / 10).
Proof.
  unfold risk_cell.
  destruct (simulate lat lon) as [msg|features]; [discriminate|].
  destruct (get_model model_registry "ensemble") as [ens|].
  - destruct (predict_proba ens features); [|discriminate].
    intros [= <-]. simpl. repeat split. discriminate.
  - intros [= <-]. simpl. auto.
Qed.

(** The [try] block of [get_risk_zones] on a size within bounds. *)
Lemma risk_grid_done (model_registry : ModelRegistry)
    (lat_points lon_points : list R) (risk_grid : list (list Cell)) :
  for_each
    (fun lat => for_each (risk_cell str simulate model_registry lat) lon_points)
    lat_points = Done risk_grid ->
  length risk_grid = length lat_points /\
  Forall (fun row => length row = length lon_points) risk_grid /\
  Forall2
    (fun lat row =>
       Forall2
         (fun lon cell =>
            cell_latitude cell = lat /\ cell_longitude cell = lon)
         lon_points row)
    lat_points risk_grid /\
  (get_model model_registry "ensemble" = None ->
   Forall (Forall (fun cell => cell_probability cell = 5 / 10)) risk_grid).
Proof.
  intros H. apply for_each_done in H.
  split; [symmetry; eapply Forall2_length; exact H|].
  induction H as [|lat row lats rows Hrow Hrest IH].
  - repeat split; constructor.
  - destruct IH as (IH1 & IH2 & IH3).
    apply for_each_done in Hrow.
    split; [|split].
    + constructor; [|exact IH1].
      symmetry. eapply Forall2_length. exact Hrow.
    + constructor; [|exact IH2].
      clear -Hrow. induction Hrow as [|lon cell lons cells Hc _ IHc];
        constructor; [|exact IHc].
      apply risk_cell_done in Hc. tauto.
    + intros Hnone. constructor; [|apply IH3; exact Hnone].
      clear -Hrow Hnone. induction Hrow as [|lon cell lons cells Hc _ IHc];
        constructor; [|exact IHc].
      apply risk_cell_done in Hc. apply Hc. exact Hnone.
Qed.

(** A risk grid that is returned: the size is between 0 and 50, the grid
    has [size] rows of [size] cells, the cell in row [i] and column [j]
    carries the [i]-th latitude and the [j]-th longitude of the two
    [linspace] subdivisions, which start at the lower bounds and (from
    size 2 on) end at the upper bounds; without an ensemble every cell
    has probability 0.5. *)
Theorem get_risk_zones_returns (min_latitude max_latitude : R)
    (min_longitude max_longitude : R) (size : Z)
    (model_registry : ModelRegistry) (zones : RiskZones) :
  get_risk_zones str utcnow simulate min_latitude max_latitude
    min_longitude max_longitude size model_registry = Return zones ->
  (0 <= size <= 50)%Z /\
  grid_size zones = size /\
  bounds zones = (min_latitude, max_latitude, min_longitude, max_longitude) /\
  length (grid zones) = Z.to_nat size /\
  Forall (fun row => length row = Z.to_nat size) (grid zones) /\
  (exists lat_points lon_points,
     linspace min_latitude max_latitude size = Some lat_points /\
     linspace min_longitude max_longitude size = Some lon_points /\
     Forall2
       (fun lat row =>
          Forall2
            (fun lon cell =>
               cell_latitude cell = lat /\ cell_longitude cell = lon)
            lon_points row)
       lat_points (grid zones) /\
     ((1 <= size)%Z ->
      head lat_points = Some min_latitude /\
      head lon_points = Some min_longitude) /\
     ((2 <= size)%Z ->
      last lat_points = Some max_latitude /\
      last lon_points = Some max_longitude)) /\
  (get_model model_registry "ensemble" = None ->
   Forall (Forall (fun cell => cell_probability cell = 5 / 10))
     (grid zones)).
Proof.
  unfold get_risk_zones.
  destruct (Z.ltb_spec 50 size) as [Hbig|Hok]; [discriminate|].
  destruct (linspace min_latitude max_latitude size) as [lats|] eqn:Hlat;
    [|discriminate].
  destruct (linspace min_longitude max_longitude size) as [lons|] eqn:Hlon;
    [|discriminate].
  destruct (for_each _ lats) as [g|sc d|msg] eqn:Hg; try discriminate.
  intros [= <-]. simpl.
  apply risk_grid_done in Hg. destruct Hg as (G1 & G2 & G3 & G4).
  apply linspace_some in Hlat, Hlon.
  destruct Hlat as (L0 & L1 & L2 & L3), Hlon as (M0 & M1 & M2 & M3).
  rewrite L1 in G1. rewrite M1 in G2.
  split; [lia|]. do 4 (split; [auto|]).
  split; [|exact G4].
  exists lats, lons. repeat split; auto.
Qed.

(** How [get_risk_zones] fails: a size above 50 gets the 400 unchanged,
    a negative size gets a 500 that quotes numpy's message, and every
    failure is a 400 (exactly when the size is above 50) or a 500. *)
Theorem get_risk_zones_raises (min_latitude max_latitude : R)
    (min_longitude max_longitude : R) (size : Z)
    (model_registry : ModelRegistry) :
  let call :=
    get_risk_zones str utcnow simulate min_latitude max_latitude
      min_longitude max_longitude size model_registry in
  ((50 < size)%Z ->
   call = Raise (HTTPException 400 "Grid size too large (max: 50x50)")) /\
  ((size < 0)%Z ->
   call = Raise (HTTPException 500
                   ("Risk zone generation failed: Number of samples, "
                    +:+ pretty size +:+ ", must be non-negative."))) /\
  (forall e,
     call = Raise e ->
     exists status_code detail,
       e = HTTPException status_code detail /\
       (status_code = 400%nat /\ (50 < size)%Z
        \/ status_code = 500%nat /\ (size <= 50)%Z)).
Proof.
  cbv zeta. unfold get_risk_zones.
  destruct (Z.ltb_spec 50 size) as [Hbig|Hok].
  - split; [reflexivity|]. split; [lia|].
    intros e [= <-]. eexists _, _. split; [reflexivity|]. left. auto.
  - split; [lia|]. split.
    + intros Hneg. unfold linspace.
      destruct (Z.ltb_spec size 0); [reflexivity|lia].
    + intros e.
      destruct (linspace min_latitude max_latitude size) as [lats|].
      * destruct (linspace min_longitude max_longitude size) as [lons|].
        -- destruct (for_each _ lats) as [g|sc d|msg] eqn:Hg.
           ++ discriminate.
           ++ exfalso. revert Hg. apply for_each_not_http.
              intros lat sc' d'. apply for_each_not_http.
              intros lon sc'' d''. unfold risk_cell.
              destruct (simulate lat lon); [discriminate|].
              destruct (get_model model_registry "ensemble") as [ens|];
                [|discriminate].
              destruct (predict_proba ens l); discriminate.
           ++ intros [= <-]. eexists _, _. split; [reflexivity|].
              right. auto.
        -- intros [= <-]. eexists _, _. split; [reflexivity|]. right. auto.
      * intros [= <-]. eexists _, _. split; [reflexivity|]. right. auto.
Qed.


End Handlers.


Lemma predict_single_response_invariants_witness :
  exists response,
    predict_single settings Samples.sample_str 0 Samples.sample_request
      Samples.ensemble_only = Return response /\
    0 <= probability response <= 1.
Proof.
  destruct EndpointsSpec.sample_prediction_returns as (response & H & _).
  exists response. split; [exact H|].
  exact (proj1 (predict_single_response_invariants settings
                  Samples.sample_str 0 Samples.sample_request
                  Samples.ensemble_only response H)).
Defined.

Lemma sample_batch_returns :
  exists response,
    predict_batch settings Samples.sample_str 0
      [Samples.sample_request; Samples.sample_request]
      Samples.ensemble_only = Return response.
Proof.
  destruct EndpointsSpec.sample_prediction_returns as (r & H & _).
  unfold predict_batch. simpl Nat.ltb. cbv iota.
  unfold predict_each. rewrite H. simpl. eauto.
Qed.

Lemma predict_batch_returns_witness :
  exists response,
    predict_batch settings Samples.sample_str 0
      [Samples.sample_request; Samples.sample_request]
      Samples.ensemble_only = Return response /\
    total_locations response = 2%nat.
Proof.
  destruct sample_batch_returns as (response & H).
  exists response. split; [exact H|].
  exact (proj1 (proj2 (proj2
    (predict_batch_returns settings Samples.sample_str 0 _ _ response H)))).
Defined.

Lemma predict_batch_raises_witness :
  (MAX_BATCH_SIZE settings < length [Samples.sample_request])%nat
  /\ HTTPException 500 "Prediction failed: Ensemble model not available"
     = HTTPException 400
         ("Batch size exceeds maximum of " +:+ pretty (MAX_BATCH_SIZE settings))
  \/ (length [Samples.sample_request] <= MAX_BATCH_SIZE settings)%nat
     /\ exists done request rest cause,
          [Samples.sample_request] = done ++ request :: rest /\
          Forall
            (fun r =>
               exists response,
                 predict_single settings Samples.sample_str 0 r
                   Samples.members_only = Return response) done /\
          predict_single_body settings 0 request Samples.members_only
          = Raise cause /\
          HTTPException 500 "Prediction failed: Ensemble model not available"
          = HTTPException 500
              ("Prediction failed: " +:+ Samples.sample_str cause).
Proof.
  exact (predict_batch_raises settings Samples.sample_str 0
           [Samples.sample_request] Samples.members_only _ eq_refl).
Defined.


Lemma sample_risk_zones_return :
  exists zones,
    get_risk_zones Samples.sample_str 0 (fun _ _ => inr []) 30 31 78 79 2
      Samples.members_only = Return zones.
Proof. eexists. reflexivity. Qed.

Lemma get_risk_zones_returns_witness :
  exists zones,
    get_risk_zones Samples.sample_str 0 (fun _ _ => inr []) 30 31 78 79 2
      Samples.members_only = Return zones /\
    grid_size zones = 2%Z.
Proof.
  destruct sample_risk_zones_return as (zones & H).
  exists zones. split; [exact H|].
  exact (proj1 (proj2
    (get_risk_zones_returns Samples.sample_str 0 (fun _ _ => inr [])
       30 31 78 79 2 Samples.members_only zones H))).
Defined.



End EndpointsProps.

(** ** More on the backend bridge *)

Module BridgeProps.

Import Bridge.

Lemma arctan2_le_half_pi (y x : R) :
  0 <= y -> 0 <= x -> Py.arctan2 y x <= PI / 2.
Proof.
  intros Hy Hx. unfold Py.arctan2. pose proof PI_RGT_0 as Hpi.
  destruct (Rlt_dec 0 x).
  - pose proof (atan_bound (y / x)). lra.
  - destruct (Rlt_dec x 0); [lra|].
    destruct (Rlt_dec 0 y); [lra|].
    destruct (Rlt_dec y 0); lra.
Qed.

(** The distance of [get_historical_score]: never negative, never more
    than half the circumference [6371 * pi], zero from a point to itself,
    and the same in both directions. *)
Theorem haversine_distance_properties (lat1 lon1 lat2 lon2 : R) :
  0 <= haversine_distance lat1 lon1 lat2 lon2 <= 6371 * PI /\
  haversine_distance lat1 lon1 lat1 lon1 = 0 /\
  haversine_distance lat1 lon1 lat2 lon2
  = haversine_distance lat2 lon2 lat1 lon1.
Proof.
  split; [split|split].
  - apply BridgeSpec.haversine_nonneg.
  - unfold haversine_distance. cbv zeta.
    match goal with
    | |- 6371 * (2 * Py.arctan2 ?y ?x) <= _ =>
      pose proof (arctan2_le_half_pi y x (sqrt_pos _) (sqrt_pos _))
    end.
    lra.
  - apply BridgeSpec.haversine_same_point.
  - unfold haversine_distance, Py.radians. cbv zeta.
    replace ((lat1 - lat2) * PI / 180 / 2)
      with (- ((lat2 - lat1) * PI / 180 / 2)) by lra.
    replace ((lon1 - lon2) * PI / 180 / 2)
      with (- ((lon2 - lon1) * PI / 180 / 2)) by lra.
    rewrite !sin_neg.
    replace ((- sin ((lat2 - lat1) * PI / 180 / 2)) ^ 2)
      with (sin ((lat2 - lat1) * PI / 180 / 2) ^ 2) by ring.
    replace ((- sin ((lon2 - lon1) * PI / 180 / 2)) ^ 2)
      with (sin ((lon2 - lon1) * PI / 180 / 2) ^ 2) by ring.
    rewrite (Rmult_comm (cos (lat2 * PI / 180)) (cos (lat1 * PI / 180))).
    reflexivity.
Qed.





(** The multiplier by the reported rank: at least 1 in every case, at
    most 2 for a rank that is not negative, exactly 1 from rank 72 on,
    and [2 - rank / 72] for a rank between 1 and 72. *)
Theorem risk_multiplier_by_rank (self : LandslideMLPredictor)
    (latitude longitude : R) :
  let info := fst (get_district_info self latitude longitude) in
  1 <= risk_multiplier info /\
  ((0 <= district_rank info)%Z -> risk_multiplier info <= 2) /\
  ((72 <= district_rank info)%Z -> risk_multiplier info = 1) /\
  ((1 <= district_rank info <= 72)%Z ->
   risk_multiplier info = 2 - IZR (district_rank info) / 72).
Proof.
  cbv zeta.
  pose proof (BridgeSpec.risk_multiplier_ge_1 self latitude longitude) as H1.
  split; [exact H1|]. clear H1.
  assert (Hdefault :
    ((0 <= district_rank default_district_info)%Z ->
     risk_multiplier default_district_info <= 2) /\
    ((72 <= district_rank default_district_info)%Z ->
     risk_multiplier default_district_info = 1) /\
    ((1 <= district_rank default_district_info <= 72)%Z ->
     risk_multiplier default_district_info
     = 2 - IZR (district_rank default_district_info) / 72)).
  { simpl. repeat split; intros; try lra; lia. }
  unfold get_district_info.
  destruct (district_df self) as [[|d ds]|]; try exact Hdefault.
  destruct (events_df self) as [df|]; try exact Hdefault.
  destruct (ev_rows df) as [|row rows]; try exact Hdefault.
  cbv zeta.
  destruct (nsmallest1 _) as [[nearest dmin]|]; try exact Hdefault.
  destruct (List.filter _ _) as [|m ms]; try exact Hdefault.
  simpl. unfold Py.max.
  destruct (Rlt_dec 1 (2 - IZR (dr_rank m) / 72)) as [Hlt|Hge].
  - split; [|split].
    + intros Hrank. apply IZR_le in Hrank. lra.
    + intros Hrank. apply IZR_le in Hrank. lra.
    + intros _. reflexivity.
  - split; [|split].
    + intros _. lra.
    + intros _. reflexivity.
    + intros [Hlo Hhi]. apply IZR_le in Hlo, Hhi. lra.
Qed.

(** *** Predictions *)

Lemma adjust_bounds (p m : R) :
  0 <= p <= 1 -> 1 <= m -> p <= adjust p m <= 1.
Proof.
  intros Hp Hm. unfold adjust, Py.min.
  destruct (Rlt_dec 1 (p * m)); [lra|]. nra.
Qed.

(** A model answer that is a probability: the call succeeds, the
    adjusted probability lies between the raw one and 1, the confidence
    lies in [0, 1], and the risk tier is never below the tier of the raw
    probability. *)
Theorem predict_probability_bounds (self : LandslideMLPredictor)
    (features_dict : gmap string R) (latitude longitude : R)
    (current_month : Z) (p : R) :
  model self (snd (build_features self features_dict current_month))
  = inr p ->
  0 <= p <= 1 ->
  let out := fst (predict self features_dict latitude longitude current_month) in
  success out = true /\
  raw_probability out = Some p /\
  p <= ml_probability out <= 1 /\
  0 <= confidence out <= 1 /\
  (risk_level out = "LOW"%string -> determine_final_risk p = "LOW"%string) /\
  (determine_final_risk p = "HIGH"%string ->
   risk_level out = "HIGH"%string \/ risk_level out = "CRITICAL"%string) /\
  (determine_final_risk p = "CRITICAL"%string ->
   risk_level out = "CRITICAL"%string).
Proof.
  intros Hmodel Hp. cbv zeta.
  destruct (BridgeSpec.predict_cases self features_dict latitude longitude
              current_month)
    as [(q & Hq & Hs & Hraw & _ & Hml & Hrisk & Hconf & _)|(msg & Hmsg & _)];
    [|congruence].
  assert (q = p) by congruence. subst q.
  pose proof (adjust_bounds p _ Hp
                (BridgeSpec.risk_multiplier_ge_1 self latitude longitude))
    as Hb.
  rewrite <- Hml in Hb.
  split; [exact Hs|]. split; [exact Hraw|]. split; [exact Hb|].
  split.
  { rewrite Hconf. unfold Py.abs.
    destruct (Rlt_dec (ml_probability _ - 5 / 10) 0); lra. }
  rewrite Hrisk. unfold determine_final_risk.
  set (a := ml_probability
              (fst (predict self features_dict latitude longitude
                      current_month))) in *.
  clearbody a.
  destruct (Rlt_dec a (3 / 10)), (Rlt_dec a (6 / 10)), (Rlt_dec a (8 / 10)),
           (Rlt_dec p (3 / 10)), (Rlt_dec p (6 / 10)), (Rlt_dec p (8 / 10));
    repeat split; intros; try discriminate; try lra; auto.
Qed.

Lemma predict_probability_bounds_witness :
  ml_probability
    (fst (predict Samples.one_event_predictor ∅ 30 79 7)) <= 1.
Proof.
  assert (Hp : 0 <= 1 / 2 <= 1) by lra.
  exact (proj2 (proj1 (proj2 (proj2
    (predict_probability_bounds Samples.one_event_predictor ∅ 30 79 7
       (1 / 2) eq_refl Hp))))).
Defined.

(** The number of features handed to the model: as many as the model
    declares, or the 16 default names when it declares none. *)
Theorem predict_feature_count (self : LandslideMLPredictor)
    (features_dict : gmap string R) (latitude longitude : R)
    (current_month : Z) :
  let out := fst (predict self features_dict latitude longitude current_month) in
  success out = true ->
  feature_count out
  = Some (if Py.truthy (feature_names self)
          then length (default [] (feature_names self))
          else 16%nat) /\
  length (snd (build_features self features_dict current_month))
  = (if Py.truthy (feature_names self)
     then length (default [] (feature_names self))
     else 16%nat).
Proof.
  cbv zeta. intros Hs.
  assert (Hlen : length (snd (build_features self features_dict
                                current_month))
                 = if Py.truthy (feature_names self)
                   then length (default [] (feature_names self))
                   else 16%nat).
  { unfold build_features. cbv zeta. simpl snd. rewrite length_map.
    destruct (Py.truthy (feature_names self)); reflexivity. }
  split; [|exact Hlen].
  destruct (BridgeSpec.predict_cases self features_dict latitude longitude
              current_month)
    as [(q & _ & _ & _ & _ & _ & _ & _ & Hc)|(msg & _ & Hf & _)];
    [|congruence].
  rewrite Hc, Hlen. reflexivity.
Qed.

Lemma predict_feature_count_witness :
  feature_count (fst (predict Samples.one_event_predictor ∅ 30 79 7))
  = Some 16%nat.
Proof.
  exact (proj1 (predict_feature_count Samples.one_event_predictor ∅ 30 79 7
                  eq_refl)).
Defined.

(** *** The reference tables *)

(** The two tables are loaded together or not at all; when either file
    cannot be read the predictor has neither table, every historical
    score is 0, every district lookup is the neutral default, and a
    prediction is the model's answer capped at 1. *)
Theorem missing_csv_disables_lookups
    (loaded_model : list R -> string + R) (names : option (list string))
    (events_csv : option (list EventRow))
    (district_csv : option (list DistrictRow)) :
  let self := new_predictor loaded_model names events_csv district_csv in
  (events_df self = None <-> district_df self = None) /\
  (events_df self = None <-> events_csv = None \/ district_csv = None) /\
  (events_csv = None \/ district_csv = None ->
   forall latitude longitude,
     (forall radius_km,
        get_historical_score self latitude longitude radius_km = (0, self)) /\
     get_district_info self latitude longitude
     = (default_district_info, self) /\
     (forall features_dict current_month q,
        loaded_model
          (snd (build_features self features_dict current_month)) = inr q ->
        ml_probability
          (fst (predict self features_dict latitude longitude current_month))
        = Rmin q 1)).
Proof.
  cbv zeta. unfold new_predictor, _load_csv_reference_data.
  destruct events_csv as [rows|], district_csv as [districts|]; simpl.
  1: { split; [split; discriminate|].
       split; [split; [discriminate|intros [?|?]; discriminate]|].
       intros [?|?]; discriminate. }
  all: split; [split; reflexivity|];
    (split; [split; auto|]);
    intros _ latitude longitude;
    (split; [reflexivity|]); (split; [reflexivity|]);
    intros features_dict current_month q Hq;
    unfold predict, get_district_info; simpl;
    unfold build_features in *; simpl in *; rewrite Hq; simpl;
    unfold adjust; rewrite PyFacts.min_Rmin; f_equal; lra.
Qed.

(** *** The historical score, continued *)

Lemma nearby_bounds (self : LandslideMLPredictor)
    (latitude longitude radius_km : R) :
  forall d,
    In d (nearby_distances radius_km
            (event_distances latitude longitude (loaded_events self))) ->
    0 <= d <= radius_km.
Proof.
  intros d Hd. apply BridgeSpec.nearby_distances_In in Hd.
  destruct Hd as [Hd1 Hd2].
  apply BridgeSpec.event_distances_In in Hd1.
  destruct Hd1 as (row & _ & ->).
  split; [apply BridgeSpec.haversine_nonneg|exact Hd2].
Qed.

Lemma score_range (self : LandslideMLPredictor)
    (latitude longitude radius_km : R) :
  0 < radius_km ->
  let score := fst (get_historical_score self latitude longitude radius_km) in
  let nearby :=
    nearby_distances radius_km
      (event_distances latitude longitude (loaded_events self)) in
  (nearby = [] -> score = 0) /\
  (nearby <> [] ->
   6 / 10 * Rmin (INR (length nearby) / 10) 1 <= score <= 1 /\
   6 / 100 <= score).
Proof.
  intros Hr. cbv zeta. split.
  - intros H. rewrite BridgeSpec.get_historical_score_value, H. reflexivity.
  - intros Hne.
    rewrite (BridgeSpec.score_formula self latitude longitude radius_km Hne).
    pose proof (BridgeSpec.mean_bounds radius_km _ Hne
                  (nearby_bounds self latitude longitude radius_km)) as Hm.
    set (nearby := nearby_distances radius_km
                     (event_distances latitude longitude
                        (loaded_events self))) in *.
    assert (Hq : 0 <= Py.mean nearby / radius_km <= 1).
    { split.
      - apply Rmult_le_pos; [lra|]. left. apply Rinv_0_lt_compat. lra.
      - apply Rmult_le_reg_r with radius_km; [lra|].
        unfold Rdiv. rewrite Rmult_assoc, Rinv_l by lra. lra. }
    assert (Hc : 1 / 10 <= Rmin (INR (length nearby) / 10) 1 <= 1).
    { assert (1 <= INR (length nearby)).
      { destruct nearby; [congruence|].
        change (length (r :: nearby)) with (S (length nearby)).
        rewrite S_INR. pose proof (pos_INR (length nearby)). lra. }
      unfold Rmin. destruct (Rle_dec (INR (length nearby) / 10) 1); lra. }
    lra.
Qed.

(** For a positive radius the score is 0 exactly when no loaded event
    lies within the radius; with at least one such event it is at least
    0.06, and with ten or more at least 0.6. *)
Theorem historical_score_zero_iff (self : LandslideMLPredictor)
    (latitude longitude radius_km : R) :
  0 < radius_km ->
  let score := fst (get_historical_score self latitude longitude radius_km) in
  let nearby :=
    nearby_distances radius_km
      (event_distances latitude longitude (loaded_events self)) in
  (score = 0 <->
   forall row,
     In row (loaded_events self) ->
     radius_km < haversine_distance latitude longitude
                   (ev_latitude row) (ev_longitude row)) /\
  (nearby <> [] -> 6 / 100 <= score <= 1) /\
  ((10 <= length nearby)%nat -> 6 / 10 <= score).
Proof.
  intros Hr. cbv zeta.
  destruct (score_range self latitude longitude radius_km Hr) as [Hz Hnz].
  set (nearby := nearby_distances radius_km
                   (event_distances latitude longitude (loaded_events self)))
    in *.
  assert (Hfar : nearby = [] <->
            forall row,
              In row (loaded_events self) ->
              radius_km < haversine_distance latitude longitude
                            (ev_latitude row) (ev_longitude row)).
  { split.
    - intros Hn row Hrow.
      destruct (Rlt_dec radius_km
                  (haversine_distance latitude longitude
                     (ev_latitude row) (ev_longitude row))) as [|Hle];
        [assumption|].
      exfalso.
      assert (Hin : In (haversine_distance latitude longitude
                          (ev_latitude row) (ev_longitude row)) nearby).
      { apply BridgeSpec.nearby_distances_In. split; [|lra].
        apply BridgeSpec.event_distances_In. exists row. auto. }
      rewrite Hn in Hin. destruct Hin.
    - intros Hall. destruct nearby as [|d ds] eqn:Hn; [reflexivity|].
      exfalso.
      assert (Hin : In d nearby) by (rewrite Hn; left; reflexivity).
      apply BridgeSpec.nearby_distances_In in Hin. destruct Hin as [H1 H2].
      apply BridgeSpec.event_distances_In in H1.
      destruct H1 as (row & Hrow & ->). specialize (Hall row Hrow). lra. }
  split; [|split].
  - rewrite <- Hfar. split; [|exact Hz].
    intros Hs. destruct nearby as [|d ds] eqn:Hn; [reflexivity|].
    exfalso. assert (Hne : d :: ds <> []) by discriminate.
    destruct (Hnz Hne) as [_ H]. lra.
  - intros Hne. destruct (Hnz Hne) as [[_ H1] H2]. lra.
  - intros Hten.
    assert (Hne : nearby <> []).
    { intros H. rewrite H in Hten. simpl in Hten. lia. }
    destruct (Hnz Hne) as [[H1 _] _].
    apply le_INR in Hten. simpl in Hten.
    unfold Rmin in H1.
    destruct (Rle_dec (INR (length nearby) / 10) 1); lra.
Qed.

Lemma historical_score_zero_iff_witness :
  6 / 100
  <= fst (get_historical_score Samples.one_event_predictor 30 79 50) <= 1.
Proof.
  assert (Hr : 0 < 50) by lra.
  refine (proj1 (proj2
    (historical_score_zero_iff Samples.one_event_predictor 30 79 50 Hr)) _).
  change (loaded_events Samples.one_event_predictor)
    with [ {| ev_latitude := 30; ev_longitude := 79;
              ev_district := "Chamoli" |} ].
  unfold event_distances, nearby_distances. simpl map.
  rewrite BridgeSpec.haversine_same_point. simpl. unfold Rleb.
  destruct (Rle_dec 0 50); [discriminate|lra].
Defined.

(** The district lookup reads the district table and the event rows
    only. *)
Lemma get_district_info_value (s1 s2 : LandslideMLPredictor)
    (latitude longitude : R) :
  district_df s1 = district_df s2 ->
  loaded_events s1 = loaded_events s2 ->
  fst (get_district_info s1 latitude longitude)
  = fst (get_district_info s2 latitude longitude).
Proof.
  unfold get_district_info, loaded_events. intros <-.
  destruct (district_df s1) as [[|d ds]|]; try reflexivity.
  destruct (events_df s1) as [df1|], (events_df s2) as [df2|]; intros Hev.
  - rewrite <- Hev. destruct (ev_rows df1); [reflexivity|]. cbv zeta.
    destruct (nsmallest1 _) as [[nearest dmin]|]; [|reflexivity].
    destruct (List.filter _ _); reflexivity.
  - rewrite Hev. reflexivity.
  - rewrite <- Hev. reflexivity.
  - reflexivity.
Qed.

(** The two lookups do not disturb each other: either one gives the same
    answer before and after the other, the predictor they leave behind
    is the same in both orders, and repeating the historical score
    changes nothing more. *)
Theorem lookups_commute (self : LandslideMLPredictor)
    (latitude longitude radius_km : R) :
  let after_score :=
    snd (get_historical_score self latitude longitude radius_km) in
  let after_info := snd (get_district_info self latitude longitude) in
  fst (get_historical_score after_info latitude longitude radius_km)
  = fst (get_historical_score self latitude longitude radius_km) /\
  fst (get_district_info after_score latitude longitude)
  = fst (get_district_info self latitude longitude) /\
  snd (get_historical_score after_info latitude longitude radius_km)
  = snd (get_district_info after_score latitude longitude) /\
  get_historical_score after_score latitude longitude radius_km
  = get_historical_score self latitude longitude radius_km.
Proof.
  cbv zeta.
  pose proof (BridgeSpec.get_historical_score_frame self latitude longitude
                radius_km) as Hs.
  pose proof (BridgeSpec.get_district_info_frame self latitude longitude)
    as Hi.
  cbv zeta in Hs, Hi.
  destruct Hs as (Hs1 & Hs2 & _), Hi as (Hi1 & Hi2 & _).
  split; [|split; [|split]].
  - rewrite !BridgeSpec.get_historical_score_value, Hi2. reflexivity.
  - apply get_district_info_value; assumption.
  - rewrite !BridgeSpec.get_historical_score_state,
            !BridgeSpec.get_district_info_state.
    destruct (district_df self) as [[|d ds]|] eqn:Hd;
      destruct (events_df self) as [df|] eqn:He; simpl;
      rewrite ?Hd, ?He; try reflexivity;
      destruct (ev_rows df) eqn:Hr; simpl;
      rewrite ?Hd, ?He, ?Hr; reflexivity.
  - apply injective_projections.
    + rewrite !BridgeSpec.get_historical_score_value, Hs2. reflexivity.
    + rewrite !BridgeSpec.get_historical_score_state.
      destruct (events_df self) as [df|] eqn:He; simpl;
        rewrite ?He; try reflexivity.
      destruct (ev_rows df) eqn:Hr; simpl; rewrite ?He, ?Hr; reflexivity.
Qed.

(** *** The entry point *)

Lemma predict_state (self : LandslideMLPredictor)
    (features_dict : gmap string R) (latitude longitude : R)
    (current_month : Z) :
  snd (predict self features_dict latitude longitude current_month)
  = snd (get_district_info self latitude longitude).
Proof.
  unfold predict.
  destruct (get_district_info self latitude longitude) as [info self1].
  unfold build_features. cbv zeta.
  destruct (model self1 _); reflexivity.
Qed.

Lemma main_cases (predictor : LandslideMLPredictor)
    (latitude longitude : option R) (features : gmap string R)
    (input_keys : string) (current_month : Z) :
  let out :=
    fst (main predictor latitude longitude features input_keys
           current_month) in
  (latitude = None \/ longitude = None ->
   out = error_result
           ("Missing latitude or longitude. Input keys: " +:+ input_keys)) /\
  (forall lat lon,
     latitude = Some lat -> longitude = Some lon ->
     let result :=
       fst (predict predictor
              (<["longitude" := lon]> (<["latitude" := lat]> features))
              lat lon current_month) in
     (success result = true ->
      out = {| main_success := true;
               main_error := None;
               ml_result := result;
               historical_score :=
                 fst (get_historical_score predictor lat lon 50);
               out_latitude := Some lat;
               out_longitude := Some lon |}) /\
     (success result = false ->
      out = error_result
              (default "ML prediction returned failure" (error result)))).
Proof.
  cbv zeta. unfold main. split.
  - intros [->| ->]; [reflexivity|]. destruct latitude; reflexivity.
  - intros lat lon -> ->.
    pose proof (predict_state predictor
                  (<["longitude" := lon]> (<["latitude" := lat]> features))
                  lat lon current_month) as Hst.
    destruct (predict predictor _ lat lon current_month)
      as [result predictor1].
    simpl in Hst. subst predictor1. simpl fst.
    destruct (success result) eqn:Hs.
    + split; [intros _|discriminate].
      assert (Hv :
        fst (get_historical_score
               (snd (get_district_info predictor lat lon)) lat lon 50)
        = fst (get_historical_score predictor lat lon 50)).
      { pose proof (BridgeSpec.get_district_info_frame predictor lat lon)
          as Hf.
        cbv zeta in Hf. destruct Hf as (_ & Hev & _).
        rewrite !BridgeSpec.get_historical_score_value, Hev. reflexivity. }
      destruct (get_historical_score
                  (snd (get_district_info predictor lat lon)) lat lon 50)
        as [score predictor2].
      simpl in Hv. subst score. reflexivity.
    + split; [discriminate|]. intros _. reflexivity.
Qed.

(** What [main] prints.  Without a latitude or a longitude it is the
    error result.  With both, the request coordinates are written into
    the feature dictionary and [predict] runs on it: when it succeeds
    the output carries its result together with the historical score of
    the point at radius 50, the score the predictor gives before the
    prediction just as after it; when it fails the output is the error
    result with the message of the failure. *)
Theorem main_output (predictor : LandslideMLPredictor)
    (latitude longitude : option R) (features : gmap string R)
    (input_keys : string) (current_month : Z) :
  let out :=
    fst (main predictor latitude longitude features input_keys
           current_month) in
  (latitude = None \/ longitude = None ->
   out = error_result
           ("Missing latitude or longitude. Input keys: " +:+ input_keys)) /\
  (forall lat lon,
     latitude = Some lat -> longitude = Some lon ->
     let result :=
       fst (predict predictor
              (<["longitude" := lon]> (<["latitude" := lat]> features))
              lat lon current_month) in
     (success result = true ->
      out = {| main_success := true;
               main_error := None;
               ml_result := result;
               historical_score :=
                 fst (get_historical_score predictor lat lon 50);
               out_latitude := Some lat;
               out_longitude := Some lon |}) /\
     (success result = false ->
      out = error_result
              (default "ML prediction returned failure" (error result)))).
Proof. exact (main_cases predictor latitude longitude features input_keys
                current_month). Qed.

(** What every output of [main] satisfies.  A successful one carries a
    successful prediction with one of the four risk levels, a
    historical score in [0, 1] and the coordinates; a failed one carries
    an error text, the level UNKNOWN with probability 0.5 and confidence
    0, and the historical score 0. *)
Theorem main_invariants (predictor : LandslideMLPredictor)
    (latitude longitude : option R) (features : gmap string R)
    (input_keys : string) (current_month : Z) :
  let out :=
    fst (main predictor latitude longitude features input_keys
           current_month) in
  (main_success out = true ->
   success (ml_result out) = true /\
   In (risk_level (ml_result out))
      ["LOW"; "MODERATE"; "HIGH"; "CRITICAL"]%string /\
   0 <= historical_score out <= 1 /\
   out_latitude out = latitude /\ out_longitude out = longitude /\
   is_Some latitude /\ is_Some longitude) /\
  (main_success out = false ->
   is_Some (main_error out) /\
   success (ml_result out) = false /\
   risk_level (ml_result out) = "UNKNOWN"%string /\
   ml_probability (ml_result out) = 5 / 10 /\
   confidence (ml_result out) = 0 /\
   historical_score out = 0).
Proof.
  cbv zeta.
  destruct (main_cases predictor latitude longitude features input_keys
              current_month) as [Hmissing Hgiven].
  assert (Herr : forall msg,
    (main_success (error_result msg) = true ->
     success (ml_result (error_result msg)) = true /\
     In (risk_level (ml_result (error_result msg)))
        ["LOW"; "MODERATE"; "HIGH"; "CRITICAL"]%string /\
     0 <= historical_score (error_result msg) <= 1 /\
     out_latitude (error_result msg) = latitude /\
     out_longitude (error_result msg) = longitude /\
     is_Some latitude /\ is_Some longitude) /\
    (main_success (error_result msg) = false ->
     is_Some (main_error (error_result msg)) /\
     success (ml_result (error_result msg)) = false /\
     risk_level (ml_result (error_result msg)) = "UNKNOWN"%string /\
     ml_probability (ml_result (error_result msg)) = 5 / 10 /\
     confidence (ml_result (error_result msg)) = 0 /\
     historical_score (error_result msg) = 0)).
  { intros msg. simpl. split; [discriminate|]. intros _.
    repeat split; eauto. }
  destruct latitude as [lat|]; [|rewrite Hmissing by auto; apply Herr].
  destruct longitude as [lon|]; [|rewrite Hmissing by auto; apply Herr].
  destruct (Hgiven lat lon eq_refl eq_refl) as [Hok Hfail].
  destruct (success (fst (predict predictor _ lat lon current_month)))
    eqn:Hs.
  - rewrite (Hok eq_refl). simpl. split; [intros _|discriminate].
    split; [exact Hs|]. split.
    { destruct (BridgeSpec.predict_cases predictor
                  (<["longitude" := lon]> (<["latitude" := lat]> features))
                  lat lon current_month)
        as [(q & _ & _ & _ & _ & _ & Hr & _)|(msg & _ & Hf & _)];
        [|congruence].
      rewrite Hr. unfold determine_final_risk.
      destruct (Rlt_dec _ (3 / 10)); [simpl; auto|].
      destruct (Rlt_dec _ (6 / 10)); [simpl; auto|].
      destruct (Rlt_dec _ (8 / 10)); simpl; auto. }
    split.
    { assert (H50 : 0 < 50) by lra.
      destruct (score_range predictor lat lon 50 H50) as [Hz Hnz].
      destruct (nearby_distances 50
                  (event_distances lat lon (loaded_events predictor)))
        as [|d ds] eqn:Hn.
      - rewrite Hz by reflexivity. lra.
      - assert (Hne : d :: ds <> []) by discriminate.
        destruct (Hnz Hne) as [[H1 H2] H3]. lra. }
    repeat split; eauto.
  - rewrite (Hfail eq_refl). apply Herr.
Qed.

(** When the model declares no feature names, the vector it receives
    starts with the request's latitude and longitude, whatever the
    caller put under those two names, followed by the caller's values of
    the other fourteen default names (0 where absent); [main] succeeds
    exactly when both coordinates are given and the model answers on
    that vector. *)
Theorem main_coordinates_lead_features (predictor : LandslideMLPredictor)
    (lat lon : R) (features : gmap string R)
    (input_keys : string) (current_month : Z) :
  Py.truthy (feature_names predictor) = false ->
  let vector :=
    lat :: lon
    :: map (fun name => default 0 (features !! name))
         (skipn 2 default_feature_list) in
  snd (build_features predictor
         (<["longitude" := lon]> (<["latitude" := lat]> features))
         current_month) = vector /\
  (main_success
     (fst (main predictor (Some lat) (Some lon) features input_keys
             current_month)) = true <->
   exists p, model predictor vector = inr p).
Proof.
  intros Htruthy. cbv zeta.
  assert (Hvec :
    snd (build_features predictor
           (<["longitude" := lon]> (<["latitude" := lat]> features))
           current_month)
    = lat :: lon
      :: map (fun name => default 0 (features !! name))
           (skipn 2 default_feature_list)).
  { unfold build_features. cbv zeta. rewrite Htruthy. simpl.
    rewrite lookup_insert_eq.
    rewrite (lookup_insert_ne _ "longitude" "latitude") by discriminate.
    rewrite lookup_insert_eq.
    rewrite !lookup_insert_ne by discriminate. reflexivity. }
  split; [exact Hvec|].
  destruct (main_cases predictor (Some lat) (Some lon) features input_keys
              current_month) as [_ Hgiven].
  destruct (Hgiven lat lon eq_refl eq_refl) as [Hok Hfail].
  destruct (BridgeSpec.predict_cases predictor
              (<["longitude" := lon]> (<["latitude" := lat]> features))
              lat lon current_month)
    as [(q & Hq & Hs & _)|(msg & Hmsg & Hs & _)].
  - cbv zeta in Hq. rewrite Hvec in Hq.
    rewrite (Hok Hs). simpl. split; eauto.
  - cbv zeta in Hmsg. rewrite Hvec in Hmsg.
    rewrite (Hfail Hs). simpl. split; [discriminate|].
    intros [p Hp]. simpl in Hmsg. rewrite Hmsg in Hp. discriminate.
Qed.

Lemma main_coordinates_lead_features_witness :
  main_success
    (fst (main Samples.one_event_predictor (Some 30) (Some 79) ∅ "[]" 7))
  = true.
Proof.
  apply (proj2 (main_coordinates_lead_features Samples.one_event_predictor
                  30 79 ∅ "[]" 7 eq_refl)).
  exists (1 / 2). reflexivity.
Defined.

End BridgeProps.
